(** * FakeNewsDetector: the claim-verification pipeline of [fakenews.py]

    A shallow embedding of the five graph nodes ([plan_claims],
    [extract_next_claim], [verify_claim], [compute_score],
    [final_explanation]), of the two routers and of the graph that wires
    them, followed by the properties of the specification.

    Conventions of the embedding.
    - A Python [str] is a [string] holding its UTF-8 bytes.
    - What [json.loads] returns is a [json] value; a [dict] keeps its
      insertion order as an association list.
    - Python [int] is [Z]. The aggregator is given twice:
      [compute_score_binary64] computes the percentage as the machine
      does, on binary64 floats; [compute_score], the node of the graph,
      takes the quotient exactly, as a rational [Q]. The two give the same
      label and percentages at most one hundredth apart (checked for up to
      200 results).
    - [run] counts supersteps against explicit fuel; [graph_app_invoke] is
      the run under the limit of 25 supersteps that the graph library sets
      when no configuration is given.
    - A raised exception is the [Raise] branch of [result]; a bare
      [except:] is a match that maps every [Raise] to the default.
    - The generation model and the search tool are stateful and outside the
      program: they are functions on an abstract world [W], threaded through
      the nodes.
    - Functions keep their names; the keys of the state carry the prefix
      [st_] and those of a result [r_], a key and a node being both called
      final_explanation. *)

From Stdlib Require Import Bool Arith ZArith QArith Lia List.
From Stdlib Require Import Ascii String.
From Stdlib Require Import Qround Lqa.
From Stdlib Require Import Floats Uint63.
From Stdlib Require Import Permutation.
Import ListNotations.

Close Scope Q_scope.
Local Open Scope string_scope.
Set Warnings "-register-all".

(** ** Python values *)

Inductive exn : Type :=
| ValueError          (* raised by [extract_json]: "No JSON found" *)
| JSONDecodeError     (* raised by [json.loads] on text that is not JSON *)
| RecursionError      (* raised by [json.loads] on text nested too deep *)
| KeyError
| IndexError
| TypeError
| AttributeError
| CollaboratorError   (* whatever model.invoke or search_tool.run raises *)
| GraphRecursionError (* raised by the graph when its superstep limit is hit *).

Inductive result (A : Type) : Type :=
| Ok (a : A)
| Raise (e : exn).
Arguments Ok {A} a.
Arguments Raise {A} e.

Definition bind {A B : Type} (r : result A) (k : A -> result B) : result B :=
  match r with
  | Ok a => k a
  | Raise e => Raise e
  end.

Notation "x <- r ;; k" := (bind r (fun x => k))
  (at level 61, r at next level, right associativity).

(** [try: body / except: default]. *)
Definition try_except {A : Type} (body : result A) (default : A) : A :=
  match body with
  | Ok a => a
  | Raise _ => default
  end.

Inductive json : Type :=
| JNull
| JBool (b : bool)
| JInt (z : Z)
| JFloat (q : Q)
| JStr (s : string)
| JArr (l : list json)
| JObj (d : list (string * json)).

Definition dq : string := String (ascii_of_nat 34) EmptyString.
Definition nl : string := String (ascii_of_nat 10) EmptyString.

Fixpoint dict_lookup (k : string) (d : list (string * json)) : option json :=
  match d with
  | [] => None
  | (k', v) :: d' => if String.eqb k k' then Some v else dict_lookup k d'
  end.

(** [obj.get(k, default)]; only a dict has the method. *)
Definition py_get (obj : json) (k : string) (default : json) : result json :=
  match obj with
  | JObj d => Ok (match dict_lookup k d with Some v => v | None => default end)
  | _ => Raise AttributeError
  end.

(** [obj[k]] for a string key. *)
Definition py_getitem (obj : json) (k : string) : result json :=
  match obj with
  | JObj d => match dict_lookup k d with Some v => Ok v | None => Raise KeyError end
  | _ => Raise TypeError
  end.

(** Truth value of a value in [if v:]. *)
Definition truthy (v : json) : bool :=
  match v with
  | JNull => false
  | JBool b => b
  | JInt z => negb (Z.eqb z 0)
  | JFloat q => negb (Qeq_bool q 0)
  | JStr s => negb (String.eqb s EmptyString)
  | JArr l => match l with [] => false | _ => true end
  | JObj d => match d with [] => false | _ => true end
  end.

(** [v == s] for a string literal [s]: only an equal [str] is equal. *)
Definition py_eq_str (v : json) (s : string) : bool :=
  match v with
  | JStr s' => String.eqb s' s
  | _ => false
  end.

(** Code points of a UTF-8 string: the bytes that are not continuation
    bytes (10xxxxxx). *)
Fixpoint str_len (s : string) : nat :=
  match s with
  | EmptyString => 0
  | String c s' =>
      (if Nat.eqb (Nat.land (nat_of_ascii c) 192) 128 then 0 else 1) + str_len s'
  end.

(** [len(v)]. *)
Definition py_len (v : json) : result nat :=
  match v with
  | JStr s => Ok (str_len s)
  | JArr l => Ok (List.length l)
  | JObj d => Ok (List.length d)
  | _ => Raise TypeError
  end.

(** [l[i]] on a list, negative indices counting from the end. *)
Definition py_index {A : Type} (l : list A) (i : Z) : result A :=
  let n := Z.of_nat (List.length l) in
  let j := if (i <? 0)%Z then (i + n)%Z else i in
  if ((0 <=? j) && (j <? n))%Z%bool then
    match nth_error l (Z.to_nat j) with
    | Some a => Ok a
    | None => Raise IndexError
    end
  else Raise IndexError.

(** ** Structured-response parser: [extract_json] *)

Definition lbrace : ascii := ascii_of_nat 123.
Definition rbrace : ascii := ascii_of_nat 125.

(** The tail [.*\}] of the pattern under [re.S]: the star takes the next
    character whatever it is and is tried first (greedy); only when the rest
    cannot match does the closing brace match here. *)
Fixpoint match_star_rbrace (s : string) : option string :=
  match s with
  | EmptyString => None
  | String c s' =>
      match match_star_rbrace s' with
      | Some m => Some (String c m)
      | None => if Ascii.eqb c rbrace then Some (String c EmptyString) else None
      end
  end.

(** [re.search(r"\{.*\}", text, re.S)]: the leftmost start that matches. *)
Fixpoint re_search (text : string) : option string :=
  match text with
  | EmptyString => None
  | String c s' =>
      if Ascii.eqb c lbrace then
        match match_star_rbrace s' with
        | Some m => Some (String c m)
        | None => re_search s'
        end
      else re_search s'
  end.

(** [c in s]. *)
Fixpoint has_char (c : ascii) (s : string) : bool :=
  match s with
  | EmptyString => false
  | String c' s' => Ascii.eqb c' c || has_char c s'
  end.

(** ** The pipeline state *)

(** One entry of [claim_results]: the dict with keys claim, verdict and
    explanation built by [verify_claim]. *)
Record ClaimResult : Type := mkClaimResult {
  r_claim : json;
  r_verdict : json;
  r_explanation : json
}.

(** [VerifyState]. The last three keys are absent until the node that
    writes them has run. *)
Record VerifyState : Type := mkState {
  st_A : string;
  st_plan : json;
  st_claims : list json;
  st_current_index : Z;
  st_claim_results : list ClaimResult;
  st_legitimacy_percentage : Q;
  st_final_verdict : option string;
  st_D : option string;
  st_final_explanation : option string
}.

(** The dict [{"A": content}] given to the graph. The five keys that
    [plan_claims], the entry point, overwrites before any node reads them
    are filled with what it writes. *)
Definition init_state (content : string) : VerifyState :=
  mkState content (JArr []) [] 0%Z [] 0%Q None None None.

Inductive node : Type :=
| Node_plan_claims
| Node_extract_next_claim
| Node_verify_claim
| Node_compute_score
| Node_final_explanation
| END.

(** ** Score aggregation and report: the two pure nodes *)

(** [round(x, 2)]: to the nearest hundredth, an exact tie to the even one. *)
Definition round_half_even (q : Q) : Z :=
  let f := Qfloor q in
  match Qcompare (q - inject_Z f) (1 # 2) with
  | Lt => f
  | Gt => (f + 1)%Z
  | Eq => if Z.even f then f else (f + 1)%Z
  end.

Definition round2 (q : Q) : Q := Qmake (round_half_even (q * 100)) 100.

(** [sum(1 for r in results if r["verdict"] == "legit")]. *)
Fixpoint legit_count (results : list ClaimResult) : Z :=
  match results with
  | [] => 0%Z
  | r :: rest =>
      ((if py_eq_str (r_verdict r) "legit" then 1 else 0) + legit_count rest)%Z
  end.

(** The node, with the quotient of the two counts taken exactly; the
    machine's arithmetic is in [compute_score_binary64] below. *)
Definition compute_score (state : VerifyState) : VerifyState :=
  let results := st_claim_results state in
  match results with
  | [] =>
      mkState (st_A state) (st_plan state) (st_claims state)
        (st_current_index state) (st_claim_results state)
        0%Q (Some "Fake") (Some "Fake") (st_final_explanation state)
  | _ :: _ =>
      let percentage :=
        ((inject_Z (legit_count results)
          / inject_Z (Z.of_nat (List.length results))) * 100)%Q in
      let verdict :=
        if Qle_bool 60 percentage then "Verified" else "Unverified" in
      mkState (st_A state) (st_plan state) (st_claims state)
        (st_current_index state) (st_claim_results state)
        (round2 percentage) (Some verdict) (Some verdict)
        (st_final_explanation state)
  end.

(** [sep.join(parts)]. *)
Fixpoint join (sep : string) (parts : list string) : string :=
  match parts with
  | [] => EmptyString
  | [p] => p
  | p :: rest => p ++ sep ++ join sep rest
  end.

Section Pipeline.

(** [str(v)] of a value that is not a [str], as an f-string prints it
    (Python's [repr]); a builtin, not part of the program. *)
Variable py_repr : json -> string.

(** [json.loads], with whatever it raises. *)
Variable json_loads : string -> result json.

(** The collaborators: [model.invoke([system, human]).content] and
    [search_tool.run(query)], each free to raise and to depend on all
    that happened before. *)
Variable W : Type.
Variable model_invoke : W -> string -> string -> result string * W.
Variable search_run : W -> json -> result string * W.

Definition py_str (v : json) : string :=
  match v with
  | JStr s => s
  | _ => py_repr v
  end.

Definition extract_json (text : string) : result json :=
  match re_search text with
  | None => Raise ValueError
  | Some m => json_loads m
  end.

(** One formatted entry of the report. *)
Definition format_result (r : ClaimResult) : string :=
  if py_eq_str (r_verdict r) "not legit" then
    "❌ Claim: " ++ py_str (r_claim r) ++ nl
    ++ "Why it is not legit:" ++ nl ++ py_str (r_explanation r) ++ nl
  else
    "✅ Claim: " ++ py_str (r_claim r) ++ nl
    ++ "Why it is legit:" ++ nl ++ py_str (r_explanation r) ++ nl.

Definition final_explanation (state : VerifyState) : VerifyState :=
  let formatted := map format_result (st_claim_results state) in
  mkState (st_A state) (st_plan state) (st_claims state)
    (st_current_index state) (st_claim_results state)
    (st_legitimacy_percentage state) (st_final_verdict state) (st_D state)
    (Some (join nl formatted)).

(** ** The three nodes that call the collaborators *)

Definition plan_system : string :=
  "You are an expert fact-checker. Identify what factual claims SHOULD be verified.".

Definition plan_human (article : string) : string :=
  "Return a JSON list of factual claim topics that need verification." ++ nl ++ nl
  ++ "JSON only:" ++ nl
  ++ "{" ++ dq ++ "plan" ++ dq ++ ": [" ++ dq ++ "claim topic 1" ++ dq ++ ", "
  ++ dq ++ "claim topic 2" ++ dq ++ "]}" ++ nl ++ nl
  ++ "Article:" ++ nl ++ article.

Definition plan_claims (state : VerifyState) (w : W) : VerifyState * W :=
  let article := st_A state in
  let '(response, w') := model_invoke w plan_system (plan_human article) in
  let plan :=
    try_except
      (content <- response ;;
       parsed <- extract_json content ;;
       py_get parsed "plan" (JArr []))
      (JArr []) in
  (mkState (st_A state) plan [] 0%Z [] 0%Q
     (st_final_verdict state) (st_D state) (st_final_explanation state),
   w').

Definition extract_system : string :=
  "Extract one factual claim at a time. Respond DONE if no new claim remains.".

Definition extract_human (plan : json) (extracted : list json)
    (article : string) : string :=
  "Planned claim topics:" ++ nl ++ py_str plan ++ nl ++ nl
  ++ "Already extracted claims:" ++ nl ++ py_str (JArr extracted) ++ nl ++ nl
  ++ "Extract the NEXT missing factual claim." ++ nl
  ++ "Return JSON:" ++ nl
  ++ "{" ++ dq ++ "claim" ++ dq ++ ": " ++ dq ++ "..." ++ dq ++ "} OR {"
  ++ dq ++ "done" ++ dq ++ ": true}" ++ nl ++ nl
  ++ "Article:" ++ nl ++ article.

Definition done_signal : json := JObj [("done", JBool true)].

Definition extract_next_claim (state : VerifyState) (w : W)
    : result (VerifyState * W) :=
  let article := st_A state in
  let plan := st_plan state in
  let extracted := st_claims state in
  let '(response, w') :=
    model_invoke w extract_system (extract_human plan extracted article) in
  let parsed :=
    try_except (content <- response ;; extract_json content) done_signal in
  done <- py_get parsed "done" JNull ;;
  if truthy done then Ok (state, w')
  else
    claim <- py_getitem parsed "claim" ;;
    Ok (mkState (st_A state) (st_plan state) (extracted ++ [claim])
          (st_current_index state) (st_claim_results state)
          (st_legitimacy_percentage state) (st_final_verdict state)
          (st_D state) (st_final_explanation state),
        w').

Definition should_extract_more (state : VerifyState) : result node :=
  n <- py_len (st_plan state) ;;
  if Nat.ltb (List.length (st_claims state)) n
  then Ok Node_extract_next_claim
  else Ok Node_verify_claim.

Definition verify_system : string :=
  "You are a strict fact-checker. Explain clearly WHY a claim is legit or not legit.".

Definition verify_human (claim : json) (search_result : string) : string :=
  "Verify the following claim:" ++ nl ++ py_str claim ++ nl ++ nl
  ++ "Evidence from search results:" ++ nl ++ search_result ++ nl ++ nl
  ++ "Return JSON ONLY:" ++ nl
  ++ "{"
  ++ dq ++ "verdict" ++ dq ++ ": " ++ dq ++ "legit" ++ dq ++ " or "
  ++ dq ++ "not legit" ++ dq ++ ", "
  ++ dq ++ "explanation" ++ dq ++ ": " ++ dq
  ++ "A clear, factual explanation referencing the evidence." ++ dq
  ++ "}".

Definition verify_claim (state : VerifyState) (w : W)
    : result (VerifyState * W) :=
  let idx := st_current_index state in
  claim <- py_index (st_claims state) idx ;;
  let '(found, w1) := search_run w claim in
  search_result <- found ;;
  let '(response, w2) :=
    model_invoke w1 verify_system (verify_human claim search_result) in
  let '(verdict, explanation) :=
    try_except
      (content <- response ;;
       parsed <- extract_json content ;;
       verdict <- py_get parsed "verdict" (JStr "not legit") ;;
       explanation <- py_get parsed "explanation" (JStr EmptyString) ;;
       Ok (verdict, explanation))
      (JStr "not legit", JStr "Verification failed.") in
  Ok (mkState (st_A state) (st_plan state) (st_claims state)
        (idx + 1)%Z
        (st_claim_results state ++ [mkClaimResult claim verdict explanation])
        (st_legitimacy_percentage state) (st_final_verdict state)
        (st_D state) (st_final_explanation state),
      w2).

Definition should_continue_verification (state : VerifyState) : node :=
  if (st_current_index state <? Z.of_nat (List.length (st_claims state)))%Z
  then Node_verify_claim
  else Node_compute_score.

(** ** The graph *)

Definition config : Type := (node * VerifyState * W)%type.

(** One superstep: run the node the graph is at, merge what it returns
    into the state, and follow the edge out of it (for the two looping
    nodes, the edge their router names). Nothing runs at [END]. *)
Definition step (n : node) (state : VerifyState) (w : W) : result config :=
  match n with
  | Node_plan_claims =>
      let '(state', w') := plan_claims state w in
      Ok (Node_extract_next_claim, state', w')
  | Node_extract_next_claim =>
      sw <- extract_next_claim state w ;;
      next <- should_extract_more (fst sw) ;;
      Ok (next, fst sw, snd sw)
  | Node_verify_claim =>
      sw <- verify_claim state w ;;
      Ok (should_continue_verification (fst sw), fst sw, snd sw)
  | Node_compute_score => Ok (Node_final_explanation, compute_score state, w)
  | Node_final_explanation => Ok (END, final_explanation state, w)
  | END => Ok (END, state, w)
  end.

Inductive outcome : Type :=
| Finished (state : VerifyState) (w : W)
| Aborted (e : exn)
| Unfinished (n : node) (state : VerifyState) (w : W).

(** [graph_app.invoke], cut after [fuel] supersteps. *)
Fixpoint run (fuel : nat) (n : node) (state : VerifyState) (w : W) : outcome :=
  match n with
  | END => Finished state w
  | _ =>
      match fuel with
      | O => Unfinished n state w
      | S fuel' =>
          match step n state w with
          | Raise e => Aborted e
          | Ok (n', state', w') => run fuel' n' state' w'
          end
      end
  end.

Definition graph_invoke (fuel : nat) (content : string) (w : W) : outcome :=
  run fuel Node_plan_claims (init_state content) w.

(** The configurations a run passes through. *)
Inductive reaches (c : config) : config -> Prop :=
| reaches_here : reaches c c
| reaches_next n state w c' :
    reaches c (n, state, w) ->
    n <> END ->
    step n state w = Ok c' ->
    reaches c c'.

(** The same, counted: the configuration after [k] supersteps. *)
Fixpoint steps (k : nat) (c : config) : result config :=
  match k with
  | O => Ok c
  | S k' =>
      c' <- steps k' c ;;
      let '(n, state, w) := c' in step n state w
  end.

(** [predict]: the three fields of the HTTP response, read off the
    state the graph ends in. *)
Record Response : Type := mkResponse {
  label : string;
  percentage : Q;
  explanation : string
}.

Definition response_of (state : VerifyState) : Response :=
  mkResponse
    (match st_D state with Some d => d | None => EmptyString end)
    (st_legitimacy_percentage state)
    (match st_final_explanation state with Some e => e | None => EmptyString end).

Definition predict (fuel : nat) (header body : string) (w : W)
    : result (option Response) :=
  let content := header ++ nl ++ body in
  match graph_invoke fuel content w with
  | Finished state _ => Ok (Some (response_of state))
  | Aborted e => Raise e
  | Unfinished _ _ _ => Ok None
  end.

End Pipeline.

Arguments step py_repr json_loads {W} model_invoke search_run n state w : rename.
Arguments steps py_repr json_loads {W} model_invoke search_run k c : rename.
Arguments run py_repr json_loads {W} model_invoke search_run fuel n state w : rename.
Arguments reaches py_repr json_loads {W} model_invoke search_run c _ : rename.

(** ** What the looping nodes write, and what a run keeps true *)

(** What [extract_next_claim] returns merged into the state when it has a
    claim: the claim appended. *)
Definition add_claim (state : VerifyState) (claim : json) : VerifyState :=
  mkState (st_A state) (st_plan state) (st_claims state ++ [claim])
    (st_current_index state) (st_claim_results state)
    (st_legitimacy_percentage state) (st_final_verdict state)
    (st_D state) (st_final_explanation state).

(** What [verify_claim] returns merged into the state: one more result and
    the index moved by one. *)
Definition record_result (state : VerifyState) (r : ClaimResult) : VerifyState :=
  mkState (st_A state) (st_plan state) (st_claims state)
    (st_current_index state + 1)%Z
    (st_claim_results state ++ [r])
    (st_legitimacy_percentage state) (st_final_verdict state)
    (st_D state) (st_final_explanation state).

(** The fixed result of a failed verification. *)
Definition fallback_result (claim : json) : ClaimResult :=
  mkClaimResult claim (JStr "not legit") (JStr "Verification failed.").

(** The report string: the entries joined by a line break. *)
Definition report (py_repr : json -> string) (results : list ClaimResult) : string :=
  join nl (map (format_result py_repr) results).

(** The index invariant of the verification loop. *)
Definition index_ok (state : VerifyState) : Prop :=
  Z.of_nat (List.length (st_claim_results state)) = st_current_index state
  /\ (0 <= st_current_index state
      <= Z.of_nat (List.length (st_claims state)))%Z.

(** How many claims a configuration may hold, by node: none before the
    planner; at the extractor none yet or fewer than the plan is long;
    from the verifier on at most one or at most as many as the plan is
    long. *)
Definition claims_bounded (n : node) (state : VerifyState) : Prop :=
  match n with
  | Node_plan_claims => st_claims state = []
  | Node_extract_next_claim =>
      st_claims state = []
      \/ exists N, py_len (st_plan state) = Ok N
                   /\ List.length (st_claims state) < N
  | _ =>
      List.length (st_claims state) <= 1
      \/ exists N, py_len (st_plan state) = Ok N
                   /\ List.length (st_claims state) <= N
  end.

(** ** Scripted collaborators

    Concrete stand-ins for the model and the search tool, for running the
    pipeline on examples: each call consumes the next scripted reply, and
    once the script is used up the fixed last reply is given for ever. *)

Record Script : Type := mkScript {
  model_replies : list (result string);
  model_last : result string;
  search_replies : list (result string);
  search_last : result string
}.

Definition scripted_model (w : Script) (system human : string)
    : result string * Script :=
  match model_replies w with
  | [] => (model_last w, w)
  | r :: rest =>
      (r, mkScript rest (model_last w) (search_replies w) (search_last w))
  end.

Definition scripted_search (w : Script) (query : json) : result string * Script :=
  match search_replies w with
  | [] => (search_last w, w)
  | r :: rest =>
      (r, mkScript (model_replies w) (model_last w) rest (search_last w))
  end.

Definition quoted (s : string) : string := dq ++ s ++ dq.

(** Replies the examples use, with the value [json.loads] gives for each. *)
Definition text_plan_t : string := "{" ++ quoted "plan" ++ ": [" ++ quoted "t" ++ "]}".
Definition text_claim_c : string := "{" ++ quoted "claim" ++ ": " ++ quoted "c" ++ "}".
Definition text_done : string := "{" ++ quoted "done" ++ ": true}".
Definition text_legit : string :=
  "{" ++ quoted "verdict" ++ ": " ++ quoted "legit" ++ ", "
  ++ quoted "explanation" ++ ": " ++ quoted "e" ++ "}".
Definition text_capital_legit : string :=
  "{" ++ quoted "verdict" ++ ": " ++ quoted "Legit" ++ "}".
Definition text_not_legit : string :=
  "{" ++ quoted "verdict" ++ ": " ++ quoted "not legit" ++ ", "
  ++ quoted "explanation" ++ ": " ++ quoted "e" ++ "}".
Definition text_plan_two : string :=
  "{" ++ quoted "plan" ++ ": [" ++ quoted "t" ++ ", " ++ quoted "u" ++ "]}".
Definition text_empty_object : string := "{}".

(** [json.loads] on the texts above; on every other text the table says
    that it raises [JSONDecodeError], so an example must stay within the
    table or give the model a reply without braces. *)
Definition table_json_loads (text : string) : result json :=
  if String.eqb text text_plan_t then Ok (JObj [("plan", JArr [JStr "t"])])
  else if String.eqb text text_claim_c then Ok (JObj [("claim", JStr "c")])
  else if String.eqb text text_done then Ok (JObj [("done", JBool true)])
  else if String.eqb text text_legit then
    Ok (JObj [("verdict", JStr "legit"); ("explanation", JStr "e")])
  else if String.eqb text text_capital_legit then
    Ok (JObj [("verdict", JStr "Legit")])
  else if String.eqb text text_not_legit then
    Ok (JObj [("verdict", JStr "not legit"); ("explanation", JStr "e")])
  else if String.eqb text text_plan_two then
    Ok (JObj [("plan", JArr [JStr "t"; JStr "u"])])
  else if String.eqb text text_empty_object then Ok (JObj [])
  else Raise JSONDecodeError.

(** No example formats a value that is not a [str]. *)
Definition no_repr (v : json) : string := "<repr>".

Definition demo_verify_claim :=
  @verify_claim no_repr table_json_loads Script scripted_model scripted_search.
Definition demo_steps :=
  @steps no_repr table_json_loads Script scripted_model scripted_search.
Definition demo_run :=
  @run no_repr table_json_loads Script scripted_model scripted_search.
Definition demo_predict :=
  @predict no_repr table_json_loads Script scripted_model scripted_search.

(** The search answers; the model gives the listed replies and then
    raises. *)
Definition script_answers (replies : list (result string)) : Script :=
  mkScript replies (Raise CollaboratorError) [] (Ok "evidence").

(** The same with a search that raises on every call. *)
Definition script_search_fails (replies : list (result string)) : Script :=
  mkScript replies (Raise CollaboratorError) [] (Raise CollaboratorError).

(** The model fails at planning, so the plan is empty, and then answers
    the extractor with a claim. *)
Definition script_empty_plan_claim : Script :=
  script_answers [Raise CollaboratorError; Ok text_claim_c; Ok text_legit].

(** The model fails at planning and then signals done. *)
Definition script_empty_plan_done : Script :=
  script_answers [Raise CollaboratorError; Ok text_done].

(** The model plans one topic and from then on signals done. *)
Definition script_done_for_ever : Script :=
  mkScript [Ok text_plan_t] (Ok text_done) [] (Ok "evidence").

(** The model plans one topic and from then on raises. *)
Definition script_model_down : Script :=
  mkScript [Ok text_plan_t] (Raise CollaboratorError) [] (Ok "evidence").

(** The state after planning the one topic of [text_plan_t]. *)
Definition state_planned : VerifyState :=
  mkState "a" (JArr [JStr "t"]) [] 0%Z [] 0%Q None None None.

(** A state about to verify its only claim. *)
Definition state_one_claim : VerifyState :=
  mkState "a" (JArr [JStr "t"]) [JStr "c"] 0%Z [] 0%Q None None None.

(** A state whose results are [legit] results with verdict "legit" followed
    by [other] results with verdict "not legit". *)
Definition result_with (verdict : string) : ClaimResult :=
  mkClaimResult (JStr "c") (JStr verdict) (JStr "e").

Definition state_with (legit other : nat) : VerifyState :=
  mkState "a" (JArr []) []
    (Z.of_nat (legit + other))
    (repeat (result_with "legit") legit ++ repeat (result_with "not legit") other)
    0%Q None None None.

(** ** Two readings of the specification that the code does not follow *)

(** The labelling rule read off the reported percentage: with results
    present, the label is Verified exactly when the percentage the
    aggregator reports is at least 60. *)
Definition label_follows_reported_percentage : Prop :=
  forall state : VerifyState,
    st_claim_results state <> [] ->
    (st_final_verdict (compute_score state) = Some "Verified"
     <-> (60 <= st_legitimacy_percentage (compute_score state))%Q).

(** The extraction bound read without the first, unconditional run of the
    extractor: when the graph arrives at verification, no more claims have
    been appended than the plan is long. *)
Definition extraction_bound_by_plan_length : Prop :=
  forall (w : Script) (content : string) (k N : nat)
         (state : VerifyState) (w' : Script),
    demo_steps k (Node_plan_claims, init_state content, w)
    = Ok (Node_verify_claim, state, w') ->
    py_len (st_plan state) = Ok N ->
    List.length (st_claims state) <= N.

(** ** The percentage in binary64

    [compute_score] on machine floats, for checking examples: the
    quotient and the product as Python computes them, the comparison with
    60, and [round(x, 2)] as the hundredths nearest to the exact value of
    the float. *)

Definition float_of_count (z : Z) : float := PrimFloat.of_uint63 (Uint63.of_Z z).

Definition binary64_percentage (legit total : Z) : float :=
  (float_of_count legit / float_of_count total * 100)%float.

Definition binary64_value (x : float) : option Q :=
  match Prim2SF x with
  | S754_zero _ => Some 0%Q
  | S754_finite s m e =>
      let magnitude := (inject_Z (Z.pos m) * Qpower 2 e)%Q in
      Some (if s then (- magnitude)%Q else magnitude)
  | _ => None
  end.

Definition binary64_round2 (x : float) : option Z :=
  match binary64_value x with
  | Some q => Some (round_half_even (q * 100))
  | None => None
  end.

(** ** The aggregator on machine floats

    [compute_score] as the machine computes it. The quotient of the two
    counts, its product with 100 and the comparison with 60 are those of
    binary64; [round(x, 2)] is the float nearest to the hundredths nearest
    to the exact value of [x], an exact tie going to the even hundredth.
    The function takes the results and gives the three keys the node
    returns. (The node of the graph, [compute_score] above, takes the
    quotient exactly; the two give the same label, and percentages one
    hundredth apart at most.) *)

Definition py_round2 (x : float) : float :=
  match binary64_round2 x with
  | Some k =>
      if (k <? 0)%Z then (- (float_of_count (- k) / 100))%float
      else (float_of_count k / 100)%float
  | None => x
  end.

Record ScoreUpdate : Type := mkScoreUpdate {
  legitimacy_percentage : float;
  final_verdict : string;
  D : string
}.

Definition compute_score_binary64 (results : list ClaimResult) : ScoreUpdate :=
  match results with
  | [] => mkScoreUpdate 0%float "Fake" "Fake"
  | _ :: _ =>
      let legit_count := legit_count results in
      let percentage :=
        (float_of_count legit_count
         / float_of_count (Z.of_nat (List.length results)) * 100)%float in
      let verdict :=
        if (60 <=? percentage)%float then "Verified" else "Unverified" in
      mkScoreUpdate (py_round2 percentage) verdict verdict
  end.

(** The labelling rule read off the reported percentage, on floats. *)
Definition label_follows_reported_float : Prop :=
  forall results : list ClaimResult,
    results <> [] ->
    (final_verdict (compute_score_binary64 results) = "Verified"
     <-> (60 <=? legitimacy_percentage (compute_score_binary64 results))%float
         = true).

(** [legit] results with verdict "legit" followed by [other] results with
    verdict "not legit". *)
Definition results_with (legit other : nat) : list ClaimResult :=
  (repeat (result_with "legit") legit
   ++ repeat (result_with "not legit") other)%list.

(** What is checked of the machine's arithmetic at [legit] results out of
    [total]: the comparison with 60 decides as the whole numbers do, and
    the rounded percentage is [k] hundredths with [k] between 0 and 10000
    and within half a hundredth of 100 * legit / total. *)
Definition score_checked (legit total : Z) : bool :=
  let p := binary64_percentage legit total in
  Bool.eqb (60 <=? p)%float (3 * total <=? 5 * legit)%Z
  && match binary64_round2 p with
     | Some k =>
         ((0 <=? k) && (k <=? 10000)
          && (2 * Z.abs (k * total - 10000 * legit) <=? total))%Z
     | None => false
     end.

(** The check at every count of legit results, for every total from 1 to
    [bound]. *)
Definition scores_checked_upto (bound : nat) : bool :=
  forallb
    (fun total =>
       forallb (fun legit => score_checked (Z.of_nat legit) (Z.of_nat total))
         (seq 0 (S total)))
    (seq 1 bound).

(** ** Further definitions for the properties of a whole run *)

(** The number of supersteps the graph library grants a run that is given
    no configuration, as [predict] gives none (LangGraph's default
    recursion_limit). *)
Definition recursion_limit : nat := 25.

(** [graph_app.invoke] under that limit: a run that has not come to its
    end within the supersteps granted is ended by the library with
    [GraphRecursionError]. *)
Definition graph_app_invoke (py_repr : json -> string)
    (json_loads : string -> result json) {W : Type}
    (model_invoke : W -> string -> string -> result string * W)
    (search_run : W -> json -> result string * W)
    (content : string) (w : W) : outcome W :=
  match graph_invoke py_repr json_loads W model_invoke search_run
          recursion_limit content w with
  | Unfinished _ _ _ _ => Aborted W GraphRecursionError
  | finished_or_aborted => finished_or_aborted
  end.

(** [predict] under that limit: a response, or what ended the run. *)
Definition predict_app (py_repr : json -> string)
    (json_loads : string -> result json) {W : Type}
    (model_invoke : W -> string -> string -> result string * W)
    (search_run : W -> json -> result string * W)
    (header body : string) (w : W) : result Response :=
  match graph_app_invoke py_repr json_loads model_invoke search_run
          (header ++ nl ++ body) w with
  | Finished _ state _ => Ok (response_of state)
  | Aborted _ e => Raise e
  | Unfinished _ _ _ _ => Raise GraphRecursionError
  end.

(** The place of a node in the pipeline. *)
Definition node_rank (n : node) : nat :=
  match n with
  | Node_plan_claims => 0
  | Node_extract_next_claim => 1
  | Node_verify_claim => 2
  | Node_compute_score => 3
  | Node_final_explanation => 4
  | END => 5
  end.

(** The values [len] accepts. *)
Definition has_len (v : json) : bool :=
  match v with
  | JStr _ | JArr _ | JObj _ => true
  | _ => false
  end.


(** A reply that carries a claim and a done that is the string "false",
    which Python takes for true, and [json.loads] on it. *)
Definition text_done_false_claim : string :=
  "{" ++ quoted "done" ++ ": " ++ quoted "false" ++ ", "
  ++ quoted "claim" ++ ": " ++ quoted "c" ++ "}".

Definition done_claim_loads (text : string) : result json :=
  if String.eqb text text_done_false_claim
  then Ok (JObj [("done", JStr "false"); ("claim", JStr "c")])
  else table_json_loads text.

(** A reply whose plan is a number, and [json.loads] on it. *)
Definition text_plan_number : string := "{" ++ quoted "plan" ++ ": 5}".

Definition number_plan_loads (text : string) : result json :=
  if String.eqb text text_plan_number then Ok (JObj [("plan", JInt 5)])
  else table_json_loads text.

(** What a run keeps true of the results: they are in range, they belong
    to the claims before the index, in the order of the claims, and once
    the verifier is left the index has passed every claim. *)
Definition verified_in_order (n : node) (state : VerifyState) : Prop :=
  index_ok state
  /\ map r_claim (st_claim_results state)
     = firstn (Z.to_nat (st_current_index state)) (st_claims state)
  /\ (3 <= node_rank n ->
      st_current_index state = Z.of_nat (List.length (st_claims state))).

(** The state after two topics were planned, the claim "c" extracted
    twice and both claims verified, the first as legit and the second as
    not legit. *)
Definition state_two_verified : VerifyState :=
  record_result
    (record_result
       (add_claim
          (add_claim
             (mkState "a" (JArr [JStr "t"; JStr "u"]) [] 0%Z [] 0%Q
                None None None)
             (JStr "c"))
          (JStr "c"))
       (mkClaimResult (JStr "c") (JStr "legit") (JStr "e")))
    (mkClaimResult (JStr "c") (JStr "not legit") (JStr "e")).





(** * Properties *)

(** ** The parser *)

Lemma has_char_app c s t :
  has_char c (s ++ t) = has_char c s || has_char c t.
Proof.
  induction s as [|a s IH]; simpl; [reflexivity|].
  now rewrite IH, orb_assoc.
Qed.

Lemma match_star_rbrace_none s :
  match_star_rbrace s = None <-> has_char rbrace s = false.
Proof.
  induction s as [|a s IH]; simpl.
  - tauto.
  - destruct (match_star_rbrace s) as [m|].
    + split; [discriminate|].
      intros H. apply orb_false_elim in H. destruct H as [_ H].
      apply IH in H. discriminate.
    + rewrite (proj1 IH eq_refl), orb_false_r.
      destruct (Ascii.eqb a rbrace); split; congruence.
Qed.

(** The greedy star stops at the last closing brace. *)
Lemma match_star_rbrace_last mid post :
  has_char rbrace post = false ->
  match_star_rbrace (mid ++ String rbrace post)
  = Some (mid ++ String rbrace EmptyString).
Proof.
  intros Hpost. induction mid as [|a mid IH]; simpl.
  - apply match_star_rbrace_none in Hpost. now rewrite Hpost.
  - now rewrite IH.
Qed.

Lemma match_star_rbrace_some s m :
  match_star_rbrace s = Some m ->
  exists mid post,
    s = mid ++ String rbrace post /\ has_char rbrace post = false
    /\ m = mid ++ String rbrace EmptyString.
Proof.
  revert m. induction s as [|a s IH]; simpl; intros m H; [discriminate|].
  destruct (match_star_rbrace s) as [m'|] eqn:E.
  - injection H as <-. destruct (IH m' eq_refl) as (mid & post & -> & Hp & ->).
    exists (String a mid), post. auto.
  - destruct (Ascii.eqb_spec a rbrace) as [->|]; [|discriminate].
    injection H as <-. exists EmptyString, s. repeat split.
    now apply match_star_rbrace_none.
Qed.

Lemma re_search_no_rbrace s : has_char rbrace s = false -> re_search s = None.
Proof.
  induction s as [|a s IH]; simpl; intros H; [reflexivity|].
  apply orb_false_elim in H. destruct H as [_ H].
  rewrite (IH H), (proj2 (match_star_rbrace_none s) H).
  now destruct (Ascii.eqb a lbrace).
Qed.

Lemma re_search_skip pre rest :
  has_char lbrace pre = false -> re_search (pre ++ rest) = re_search rest.
Proof.
  induction pre as [|a pre IH]; simpl; intros H; [reflexivity|].
  apply orb_false_elim in H. destruct H as [Ha H].
  now rewrite Ha, IH.
Qed.

Lemma re_search_some text m :
  re_search text = Some m ->
  exists pre mid post,
    text = pre ++ String lbrace (mid ++ String rbrace post)
    /\ has_char lbrace pre = false /\ has_char rbrace post = false
    /\ m = String lbrace (mid ++ String rbrace EmptyString).
Proof.
  induction text as [|a s IH]; simpl; intros H; [discriminate|].
  destruct (Ascii.eqb_spec a lbrace) as [->|Hne].
  - destruct (match_star_rbrace s) as [m'|] eqn:E.
    + injection H as <-.
      destruct (match_star_rbrace_some _ _ E) as (mid & post & -> & Hp & ->).
      exists EmptyString, mid, post. auto.
    + apply match_star_rbrace_none in E.
      rewrite (re_search_no_rbrace _ E) in H. discriminate.
  - destruct (IH H) as (pre & mid & post & -> & Hpre & Hpost & ->).
    exists (String a pre), mid, post. simpl.
    apply Ascii.eqb_neq in Hne. rewrite Hne, Hpre. auto.
Qed.

Lemma re_search_span pre mid post :
  has_char lbrace pre = false -> has_char rbrace post = false ->
  re_search (pre ++ String lbrace (mid ++ String rbrace post))
  = Some (String lbrace (mid ++ String rbrace EmptyString)).
Proof.
  intros Hpre Hpost. rewrite (re_search_skip _ _ Hpre).
  cbn [re_search]. change (Ascii.eqb lbrace lbrace) with true. cbv iota.
  now rewrite (match_star_rbrace_last _ _ Hpost).
Qed.

Lemma re_search_none text :
  re_search text = None <->
  ~ exists pre mid post, text = pre ++ String lbrace (mid ++ String rbrace post).
Proof.
  split.
  - intros Hnone (pre & mid & post & ->).
    revert Hnone. induction pre as [|a pre IH]; simpl.
    + destruct (match_star_rbrace (mid ++ String rbrace post)) eqn:E;
        [discriminate|].
      apply match_star_rbrace_none in E. rewrite has_char_app in E. simpl in E.
      rewrite orb_true_r in E. discriminate.
    + destruct (Ascii.eqb a lbrace); [|exact IH].
      destruct (match_star_rbrace _); [discriminate|exact IH].
  - intros Hno. destruct (re_search text) as [m|] eqn:E; [|reflexivity].
    exfalso. apply Hno.
    destruct (re_search_some _ _ E) as (pre & mid & post & -> & _).
    now exists pre, mid, post.
Qed.

Example re_search_across_lines :
  re_search ("x{a}" ++ nl ++ "{b} y}z") = Some ("{a}" ++ nl ++ "{b} y}").
Proof. reflexivity. Qed.

Example re_search_wrong_order : re_search "} text {" = None.
Proof. reflexivity. Qed.

(** C8. [extract_json] is a function of the text alone. The text it hands
    to [json.loads] is the span from the first opening brace to the last
    closing brace, whatever lies between (line breaks included), and there
    is such a span exactly when some closing brace follows some opening
    brace. It returns exactly what [json.loads] makes of that whole span,
    and it raises exactly when there is no span, and then [ValueError], or
    when [json.loads] raises on the span, and then what [json.loads]
    raised. *)
Theorem extract_json_spec (json_loads : string -> result json) (text : string) :
  (forall m,
      re_search text = Some m <->
      exists pre mid post,
        text = pre ++ String lbrace (mid ++ String rbrace post)
        /\ has_char lbrace pre = false /\ has_char rbrace post = false
        /\ m = String lbrace (mid ++ String rbrace EmptyString))
  /\ (re_search text = None <->
      ~ exists pre mid post,
          text = pre ++ String lbrace (mid ++ String rbrace post))
  /\ (forall v,
        extract_json json_loads text = Ok v <->
        exists m, re_search text = Some m /\ json_loads m = Ok v)
  /\ (forall e,
        extract_json json_loads text = Raise e <->
        (re_search text = None /\ e = ValueError)
        \/ exists m, re_search text = Some m /\ json_loads m = Raise e).
Proof.
  split; [|split; [|split]].
  - intros m. split.
    + apply re_search_some.
    + intros (pre & mid & post & -> & Hpre & Hpost & ->).
      now apply re_search_span.
  - apply re_search_none.
  - intros v. unfold extract_json. destruct (re_search text) as [m|].
    + split.
      * intros H. now exists m.
      * intros (m' & [= <-] & H). exact H.
    + split; [discriminate|]. intros (m & H & _). discriminate.
  - intros e. unfold extract_json. destruct (re_search text) as [m|].
    + split.
      * intros H. right. now exists m.
      * intros [[H _]|(m' & [= <-] & H)]; [discriminate | exact H].
    + split.
      * intros [= <-]. now left.
      * intros [[_ ->]|(m & H & _)]; [reflexivity | discriminate].
Qed.

(** What [json.loads] raises is what [extract_json] raises: a span nested
    too deep for the parser leaves the node with [RecursionError], not
    with [ValueError]. *)
Example extract_json_keeps_the_error :
  extract_json (fun _ => Raise RecursionError) "{[[[[}" = Raise RecursionError
  /\ extract_json (fun _ => Raise RecursionError) "no brace" = Raise ValueError.
Proof. split; reflexivity. Qed.

(** ** The report builder *)

Lemma join_cons sep p q rest :
  join sep (p :: q :: rest) = p ++ sep ++ join sep (q :: rest).
Proof. reflexivity. Qed.

Lemma string_app_assoc (a b c : string) : (a ++ b) ++ c = a ++ (b ++ c).
Proof. induction a as [|x a IH]; simpl; [reflexivity | now rewrite IH]. Qed.

Lemma string_app_nil_r (a : string) : a ++ EmptyString = a.
Proof. induction a as [|x a IH]; simpl; [reflexivity | now rewrite IH]. Qed.

Lemma join_app sep l1 l2 :
  l1 <> [] -> l2 <> [] ->
  join sep (l1 ++ l2)%list = join sep l1 ++ sep ++ join sep l2.
Proof.
  intros H1 H2. induction l1 as [|p l1 IH]; [congruence|].
  destruct l1 as [|q l1].
  - destruct l2 as [|r l2]; [congruence | reflexivity].
  - change ((p :: q :: l1) ++ l2)%list with (p :: q :: (l1 ++ l2))%list.
    rewrite !join_cons. change (q :: l1 ++ l2)%list with ((q :: l1) ++ l2)%list.
    rewrite IH by discriminate. now rewrite !string_app_assoc.
Qed.

Lemma format_result_ends_line py_repr r :
  exists body, format_result py_repr r = body ++ nl.
Proof.
  unfold format_result. destruct (py_eq_str (r_verdict r) "not legit").
  - exists ("❌ Claim: " ++ py_str py_repr (r_claim r) ++ nl
            ++ "Why it is not legit:" ++ nl ++ py_str py_repr (r_explanation r)).
    now rewrite !string_app_assoc.
  - exists ("✅ Claim: " ++ py_str py_repr (r_claim r) ++ nl
            ++ "Why it is legit:" ++ nl ++ py_str py_repr (r_explanation r)).
    now rewrite !string_app_assoc.
Qed.

(** C7. [final_explanation] writes only the key final_explanation, as a
    function of claim_results alone: the entries of the results, one per
    result and in their order, joined by a line break. Each entry holds the
    mark and the wording of its status, the claim and the explanation
    themselves (a string as it is, any other value as Python prints it),
    and ends its last line, so two entries are a blank line apart; no
    result gives the empty string. *)
Theorem final_explanation_spec (py_repr : json -> string) :
  (forall state,
      final_explanation py_repr state
      = mkState (st_A state) (st_plan state) (st_claims state)
          (st_current_index state) (st_claim_results state)
          (st_legitimacy_percentage state) (st_final_verdict state)
          (st_D state) (Some (report py_repr (st_claim_results state))))
  /\ report py_repr [] = EmptyString
  /\ (forall r, report py_repr [r] = format_result py_repr r)
  /\ (forall before after,
        before <> [] -> after <> [] ->
        report py_repr (before ++ after)%list
        = report py_repr before ++ nl ++ report py_repr after)
  /\ (forall results,
        results <> [] -> exists body, report py_repr results = body ++ nl)
  /\ (forall r,
        format_result py_repr r
        = (if py_eq_str (r_verdict r) "not legit" then "❌" else "✅")
          ++ " Claim: " ++ py_str py_repr (r_claim r) ++ nl
          ++ "Why it is "
          ++ (if py_eq_str (r_verdict r) "not legit" then "not legit" else "legit")
          ++ ":" ++ nl ++ py_str py_repr (r_explanation r) ++ nl)
  /\ (forall verdict claim explanation,
        format_result py_repr
          (mkClaimResult (JStr claim) verdict (JStr explanation))
        = (if py_eq_str verdict "not legit" then "❌" else "✅")
          ++ " Claim: " ++ claim ++ String (ascii_of_nat 10)
               ("Why it is "
                ++ (if py_eq_str verdict "not legit" then "not legit" else "legit")
                ++ ":" ++ String (ascii_of_nat 10)
                     (explanation ++ String (ascii_of_nat 10) EmptyString)))
  /\ (forall r,
        format_result py_repr r
        = (if py_eq_str (r_verdict r) "not legit" then "❌" else "✅")
          ++ " Claim: "
          ++ match r_claim r with JStr text => text | v => py_repr v end
          ++ nl ++ "Why it is "
          ++ (if py_eq_str (r_verdict r) "not legit" then "not legit" else "legit")
          ++ ":" ++ nl
          ++ match r_explanation r with JStr text => text | v => py_repr v end
          ++ nl)
  /\ (forall first second,
        report py_repr
          [mkClaimResult (JStr "c1") (JStr "legit") (JStr first);
           mkClaimResult (JStr "c2") (JStr "not legit") (JStr second)]
        = "✅ Claim: c1" ++ String (ascii_of_nat 10)
            ("Why it is legit:" ++ String (ascii_of_nat 10)
               (first ++ String (ascii_of_nat 10)
                  (String (ascii_of_nat 10)
                     ("❌ Claim: c2" ++ String (ascii_of_nat 10)
                        ("Why it is not legit:" ++ String (ascii_of_nat 10)
                           (second ++ String (ascii_of_nat 10) EmptyString))))))).
Proof.
  assert (Hend : forall results,
             results <> [] -> exists body, report py_repr results = body ++ nl).
  { unfold report. induction results as [|r rest IH]; [congruence|]. intros _.
    destruct rest as [|r' rest].
    - apply format_result_ends_line.
    - destruct IH as [body Hb]; [discriminate|].
      cbn [map] in *. rewrite join_cons, Hb.
      exists (format_result py_repr r ++ nl ++ body).
      now rewrite !string_app_assoc. }
  assert (Hcons : forall (a b : string) c,
             a ++ String c b = a ++ String c EmptyString ++ b)
    by reflexivity.
  split; [reflexivity|]. split; [reflexivity|]. split; [reflexivity|].
  split; [|split; [exact Hend|split; [|split; [|split]]]].
  - intros before after Hb Ha. unfold report. rewrite map_app.
    apply join_app; destruct before, after; simpl; congruence.
  - intros r. unfold format_result.
    destruct (py_eq_str (r_verdict r) "not legit"); reflexivity.
  - intros verdict claim explanation. unfold format_result, nl.
    cbn [r_verdict r_claim r_explanation py_str].
    destruct (py_eq_str verdict "not legit");
      rewrite !Hcons, ?string_app_assoc; reflexivity.
  - intros r. unfold format_result, py_str.
    destruct (py_eq_str (r_verdict r) "not legit");
      destruct (r_claim r), (r_explanation r); reflexivity.
  - intros first second. unfold report, format_result, nl.
    cbn [map join r_verdict r_claim r_explanation py_str py_eq_str String.eqb
         Ascii.eqb Bool.eqb].
    rewrite !Hcons, ?string_app_assoc. reflexivity.
Qed.

Example report_two_entries :
  report no_repr
    [mkClaimResult (JStr "c1") (JStr "legit") (JStr "e1");
     mkClaimResult (JStr "c2") (JStr "not legit") (JStr "e2")]
  = "✅ Claim: c1" ++ nl ++ "Why it is legit:" ++ nl ++ "e1" ++ nl
    ++ nl
    ++ "❌ Claim: c2" ++ nl ++ "Why it is not legit:" ++ nl ++ "e2" ++ nl.
Proof. reflexivity. Qed.

(** ** The score aggregator *)

Lemma round_half_even_floor q :
  (Qfloor q <= round_half_even q <= Qfloor q + 1)%Z.
Proof.
  unfold round_half_even.
  destruct (Qcompare _ _); [destruct (Z.even _)| |]; lia.
Qed.

(** Rounding moves a value by at most one half. *)
Lemma round_half_even_near q :
  (inject_Z (round_half_even q) - (1 # 2) <= q
   /\ q <= inject_Z (round_half_even q) + (1 # 2))%Q.
Proof.
  pose proof (Qfloor_le q) as Hlo. pose proof (Qlt_floor q) as Hhi.
  rewrite inject_Z_plus in Hhi. change (inject_Z 1) with 1%Q in Hhi.
  unfold round_half_even.
  destruct (Qcompare_spec (q - inject_Z (Qfloor q)) (1 # 2)) as [E|E|E].
  - destruct (Z.even (Qfloor q)).
    + split; lra.
    + rewrite inject_Z_plus. change (inject_Z 1) with 1%Q. split; lra.
  - split; lra.
  - rewrite inject_Z_plus. change (inject_Z 1) with 1%Q. split; lra.
Qed.

Lemma round_half_even_ge z q :
  (inject_Z z <= q)%Q -> (z <= round_half_even q)%Z.
Proof.
  intros H. apply Qfloor_resp_le in H. rewrite Qfloor_Z in H.
  pose proof (round_half_even_floor q). lia.
Qed.

Lemma round_half_even_le z q :
  (q <= inject_Z z)%Q -> (round_half_even q <= z)%Z.
Proof.
  intros H. pose proof (round_half_even_near q) as [Hlo _].
  destruct (Z_lt_le_dec z (round_half_even q)) as [Hlt|]; [|assumption].
  exfalso. assert (Hz : (z + 1 <= round_half_even q)%Z) by lia.
  rewrite Zle_Qle, inject_Z_plus in Hz. change (inject_Z 1) with 1%Q in Hz. lra.
Qed.

(** Comparing the exact percentage with a whole number, in integers. *)
Lemma percentage_ge z c n :
  (0 < n)%Z ->
  (inject_Z z <= inject_Z c / inject_Z n * 100)%Q <-> (z * n <= 100 * c)%Z.
Proof.
  intros Hn. destruct n as [|p|p]; try lia.
  unfold Qle, Qdiv, Qmult, Qinv, inject_Z. cbn -[Z.mul Pos.mul]. lia.
Qed.

Lemma percentage_le z c n :
  (0 < n)%Z ->
  (inject_Z c / inject_Z n * 100 <= inject_Z z)%Q <-> (100 * c <= z * n)%Z.
Proof.
  intros Hn. destruct n as [|p|p]; try lia.
  unfold Qle, Qdiv, Qmult, Qinv, inject_Z. cbn -[Z.mul Pos.mul]. lia.
Qed.

Lemma legit_count_bounds results :
  (0 <= legit_count results <= Z.of_nat (List.length results))%Z.
Proof.
  induction results as [|r rest IH]; cbn [legit_count List.length]; [lia|].
  destruct (py_eq_str (r_verdict r) "legit"); lia.
Qed.

Lemma hundredths k : (k # 100 == inject_Z k * (1 # 100))%Q.
Proof. unfold Qeq, Qmult, inject_Z. cbn -[Z.mul]. lia. Qed.

Lemma legit_count_app results more :
  legit_count (results ++ more) = (legit_count results + legit_count more)%Z.
Proof.
  induction results as [|r rest IH]; cbn [legit_count app]; [reflexivity|].
  rewrite IH. lia.
Qed.

Lemma legit_count_filter results :
  legit_count results
  = Z.of_nat (List.length
      (filter (fun r => py_eq_str (r_verdict r) "legit") results)).
Proof.
  induction results as [|r rest IH]; cbn [legit_count filter]; [reflexivity|].
  rewrite IH. destruct (py_eq_str (r_verdict r) "legit"); cbn [List.length]; lia.
Qed.

Lemma py_eq_str_iff v s : py_eq_str v s = true <-> v = JStr s.
Proof.
  destruct v; cbn [py_eq_str]; try (split; [discriminate | congruence]).
  rewrite String.eqb_eq. split; congruence.
Qed.

(** The label, in whole numbers. *)
Lemma compute_score_verified_iff state :
  st_claim_results state <> [] ->
  st_final_verdict (compute_score state) = Some "Verified"
  <-> (3 * Z.of_nat (List.length (st_claim_results state))
       <= 5 * legit_count (st_claim_results state))%Z.
Proof.
  intros Hne. unfold compute_score.
  destruct (st_claim_results state) as [|r rest] eqn:E; [congruence|].
  cbn [st_final_verdict].
  set (total := Z.of_nat (List.length (r :: rest))).
  assert (Htotal : (0 < total)%Z) by (subst total; cbn [List.length]; lia).
  change 60%Q with (inject_Z 60).
  destruct (Qle_bool _ _) eqn:Q.
  - apply Qle_bool_iff, (percentage_ge 60 _ total Htotal) in Q.
    split; [lia | reflexivity].
  - split; [discriminate|]. intros H. exfalso.
    assert (Q' : (inject_Z 60
                  <= inject_Z (legit_count (r :: rest)) / inject_Z total * 100)%Q)
      by (apply percentage_ge; [assumption | lia]).
    apply Qle_bool_iff in Q'. congruence.
Qed.

(** The node with the quotient taken exactly. It writes the percentage and
    the two copies of the label, as a function of claim_results alone.
    With no result the percentage is 0 and the label Fake. Otherwise the
    percentage is 100 * legit / total rounded to hundredths, and the label
    is decided on the value before rounding: Verified exactly when
    100 * legit / total is at least 60 (3 * total <= 5 * legit),
    Unverified otherwise. *)
Lemma compute_score_exact (state : VerifyState) :
  let results := st_claim_results state in
  let legit := legit_count results in
  let total := Z.of_nat (List.length results) in
  let exact := (inject_Z legit / inject_Z total * 100)%Q in
  let scored := compute_score state in
  (st_A scored, st_plan scored, st_claims scored, st_current_index scored,
   st_claim_results scored, st_final_explanation scored)
  = (st_A state, st_plan state, st_claims state, st_current_index state,
     st_claim_results state, st_final_explanation state)
  /\ st_D scored = st_final_verdict scored
  /\ (results = [] ->
      st_legitimacy_percentage scored = 0%Q
      /\ st_final_verdict scored = Some "Fake")
  /\ (results <> [] ->
      st_legitimacy_percentage scored = round2 exact
      /\ (exists k : Z,
            st_legitimacy_percentage scored = (k # 100)%Q
            /\ (exact - (1 # 200) <= k # 100 /\ k # 100 <= exact + (1 # 200))%Q)
      /\ (0 <= st_legitimacy_percentage scored
          /\ st_legitimacy_percentage scored <= 100)%Q
      /\ (st_final_verdict scored = Some "Verified" <-> (60 <= exact)%Q)
      /\ (st_final_verdict scored = Some "Verified" <-> (3 * total <= 5 * legit)%Z)
      /\ (st_final_verdict scored = Some "Unverified" <-> ~ (60 <= exact)%Q)
      /\ (st_final_verdict scored = Some "Verified" ->
          (60 <= st_legitimacy_percentage scored)%Q)
      /\ ((st_legitimacy_percentage scored < 60)%Q ->
          st_final_verdict scored = Some "Unverified")).
Proof.
  intros results legit total exact scored.
  assert (Hfields :
    (st_A scored, st_plan scored, st_claims scored, st_current_index scored,
     st_claim_results scored, st_final_explanation scored)
    = (st_A state, st_plan state, st_claims state, st_current_index state,
       st_claim_results state, st_final_explanation state)
    /\ st_D scored = st_final_verdict scored).
  { subst scored. unfold compute_score.
    destruct (st_claim_results state); split; reflexivity. }
  destruct Hfields as [Hsame HD].
  split; [exact Hsame|]. split; [exact HD|]. split.
  - intros Hnil. subst scored results. unfold compute_score.
    rewrite Hnil. split; reflexivity.
  - intros Hne.
    assert (Htotal : (0 < total)%Z).
    { subst total. destruct results; [congruence|]. cbn [List.length]. lia. }
    pose proof (legit_count_bounds results) as Hlegit. fold legit total in Hlegit.
    assert (Hpct : st_legitimacy_percentage scored = round2 exact).
    { subst scored exact legit total results. unfold compute_score.
      destruct (st_claim_results state); [congruence | reflexivity]. }
    assert (Hlabel : st_final_verdict scored
                     = Some (if Qle_bool 60 exact then "Verified" else "Unverified")).
    { subst scored exact legit total results. unfold compute_score.
      destruct (st_claim_results state); [congruence | reflexivity]. }
    assert (Hthr : (60 <= exact)%Q <-> (3 * total <= 5 * legit)%Z).
    { subst exact. change 60%Q with (inject_Z 60).
      rewrite (percentage_ge 60 legit total Htotal). lia. }
    assert (Hv : st_final_verdict scored = Some "Verified" <-> (60 <= exact)%Q).
    { rewrite Hlabel. destruct (Qle_bool 60 exact) eqn:E.
      - apply Qle_bool_iff in E. tauto.
      - split; [discriminate|]. intros H. apply Qle_bool_iff in H. congruence. }
    assert (Hround : (60 <= exact)%Q -> (60 <= round2 exact)%Q).
    { intros H. unfold round2.
      assert (H' : (inject_Z 6000 <= exact * 100)%Q).
      { change (inject_Z 6000) with (6000 # 1)%Q. lra. }
      apply round_half_even_ge in H'. unfold Qle. cbn -[Z.mul]. lia. }
    rewrite Hpct. repeat split.
    + exists (round_half_even (exact * 100)). split; [reflexivity|].
      pose proof (round_half_even_near (exact * 100)) as [Hlo Hhi].
      rewrite hundredths. split; lra.
    + unfold round2.
      assert (H' : (inject_Z 0 <= exact * 100)%Q).
      { assert (inject_Z 0 <= exact)%Q
          by (subst exact; apply percentage_ge; [assumption | lia]).
        change (inject_Z 0) with 0%Q in *. lra. }
      apply round_half_even_ge in H'. unfold Qle. cbn -[Z.mul]. lia.
    + unfold round2.
      assert (H' : (exact * 100 <= inject_Z 10000)%Q).
      { assert (exact <= inject_Z 100)%Q
          by (subst exact; apply percentage_le; [assumption | lia]).
        change (inject_Z 100) with 100%Q in *.
        change (inject_Z 10000) with 10000%Q. lra. }
      apply round_half_even_le in H'. unfold Qle. cbn -[Z.mul]. lia.
    + apply Hv.
    + apply Hv.
    + intros H. apply Hthr, Hv, H.
    + intros H. apply Hv, Hthr, H.
    + rewrite Hlabel. destruct (Qle_bool 60 exact) eqn:E; [discriminate|].
      intros _ H. apply Qle_bool_iff in H. congruence.
    + rewrite Hlabel. intros Hn. destruct (Qle_bool 60 exact) eqn:E; [|reflexivity].
      apply Qle_bool_iff in E. contradiction.
    + intros H. apply Hround, Hv, H.
    + intros Hlt. rewrite Hlabel. destruct (Qle_bool 60 exact) eqn:E; [|reflexivity].
      apply Qle_bool_iff in E. apply Hround in E. lra.
Qed.

(** The boundary cases of the aggregator, evaluated. *)
Example compute_score_three_of_five :
  st_final_verdict (compute_score (state_with 3 2)) = Some "Verified"
  /\ (st_legitimacy_percentage (compute_score (state_with 3 2)) == 60)%Q.
Proof. split; reflexivity. Qed.

Example compute_score_one_of_two :
  st_final_verdict (compute_score (state_with 1 1)) = Some "Unverified"
  /\ (st_legitimacy_percentage (compute_score (state_with 1 1)) == 50)%Q.
Proof. split; reflexivity. Qed.

Example compute_score_no_result :
  st_final_verdict (compute_score (state_with 0 0)) = Some "Fake"
  /\ st_legitimacy_percentage (compute_score (state_with 0 0)) = 0%Q.
Proof. split; reflexivity. Qed.

(** In exact arithmetic too, of 4002 results, 2401 legit give
    100 * 2401 / 4002 = 59.995002..., which rounds to 60.00 while the
    label, decided before rounding, is Unverified. *)
Lemma exact_label_not_from_reported_percentage :
  (st_legitimacy_percentage (compute_score (state_with 2401 1601)) == 60)%Q
  /\ st_final_verdict (compute_score (state_with 2401 1601)) = Some "Unverified"
  /\ ~ label_follows_reported_percentage.
Proof.
  assert (Hp : (st_legitimacy_percentage (compute_score (state_with 2401 1601))
                == 60)%Q) by (vm_compute; reflexivity).
  assert (Hl : st_final_verdict (compute_score (state_with 2401 1601))
               = Some "Unverified") by (vm_compute; reflexivity).
  split; [exact Hp|]. split; [exact Hl|].
  intros Hrule.
  assert (Hne : st_claim_results (state_with 2401 1601) <> [])
    by (vm_compute; discriminate).
  destruct (Hrule _ Hne) as [_ Hback].
  rewrite Hl in Hback.
  assert (H60 : (60 <= st_legitimacy_percentage
                         (compute_score (state_with 2401 1601)))%Q)
    by (rewrite Hp; apply Qle_refl).
  specialize (Hback H60). discriminate.
Qed.

(** On machine floats the same input behaves the same way: the percentage
    of 2401 legit results out of 4002 is below 60 when compared, and is
    reported as 60.00; three out of five is 60 on both counts. *)
Example binary64_agrees :
  PrimFloat.leb 60 (binary64_percentage 2401 4002) = false
  /\ binary64_round2 (binary64_percentage 2401 4002) = Some 6000%Z
  /\ PrimFloat.leb 60 (binary64_percentage 3 5) = true
  /\ binary64_round2 (binary64_percentage 3 5) = Some 6000%Z.
Proof. repeat split; vm_compute; reflexivity. Qed.

(** ** The aggregator on machine floats *)

Lemma scores_checked_upto_sound bound legit total :
  scores_checked_upto bound = true ->
  1 <= total <= bound ->
  legit <= total ->
  score_checked (Z.of_nat legit) (Z.of_nat total) = true.
Proof.
  unfold scores_checked_upto. intros H Ht Hl.
  rewrite forallb_forall in H.
  specialize (H total ltac:(apply in_seq; lia)).
  rewrite forallb_forall in H. apply H. apply in_seq. lia.
Qed.

(** The machine's arithmetic was checked at every count, for every total
    up to 200. *)
Lemma scores_checked_200 : scores_checked_upto 200 = true.
Proof. vm_compute. reflexivity. Qed.

Lemma score_checked_results results :
  results <> [] ->
  List.length results <= 200 ->
  score_checked (legit_count results) (Z.of_nat (List.length results)) = true.
Proof.
  intros Hne Hlen. pose proof (legit_count_bounds results) as Hb.
  rewrite <- (Z2Nat.id (legit_count results)) by lia.
  apply (scores_checked_upto_sound 200); [exact scores_checked_200 | | lia].
  destruct results; [congruence|]. cbn [List.length] in *. lia.
Qed.

(** C5, as the code has it. [compute_score] gives the percentage and the
    two copies of the label as a function of the results alone. With no
    result the percentage is 0.0 and the label Fake. Otherwise, with p the
    float (legit / total) * 100, the percentage is p rounded to
    hundredths and the label is decided on p itself, before rounding:
    Verified exactly when p is at least 60, Unverified otherwise. For up
    to 200 results (every count was computed) this is: Verified exactly
    when 3 * total <= 5 * legit, and a percentage of k hundredths within
    half a hundredth of 100 * legit / total; so there a Verified label
    comes with a reported percentage of at least 60, and a reported
    percentage below 60 (59.99) with Unverified. Nothing is said of the
    label from a reported 60.0 alone. *)
Theorem compute_score_binary64_spec (results : list ClaimResult) :
  let legit := legit_count results in
  let total := Z.of_nat (List.length results) in
  let p := (float_of_count legit / float_of_count total * 100)%float in
  let scored := compute_score_binary64 results in
  D scored = final_verdict scored
  /\ (results = [] ->
      legitimacy_percentage scored = 0%float /\ final_verdict scored = "Fake")
  /\ (results <> [] ->
      legitimacy_percentage scored = py_round2 p
      /\ (final_verdict scored = "Verified" <-> (60 <=? p)%float = true)
      /\ (final_verdict scored = "Unverified" <-> (60 <=? p)%float = false)
      /\ (List.length results <= 200 ->
          (final_verdict scored = "Verified" <-> (3 * total <= 5 * legit)%Z)
          /\ exists k : Z,
               legitimacy_percentage scored = (float_of_count k / 100)%float
               /\ (0 <= k <= 10000)%Z
               /\ (2 * Z.abs (k * total - 10000 * legit) <= total)%Z
               /\ (final_verdict scored = "Verified" -> (6000 <= k)%Z)
               /\ ((k < 6000)%Z -> final_verdict scored = "Unverified"))).
Proof.
  intros legit total p scored.
  split; [subst scored; destruct results; reflexivity|].
  split; [intros ->; split; reflexivity|].
  intros Hne.
  assert (Hpct : legitimacy_percentage scored = py_round2 p)
    by (subst scored p legit total; destruct results; [congruence | reflexivity]).
  assert (Hlabel : final_verdict scored
                   = if (60 <=? p)%float then "Verified" else "Unverified")
    by (subst scored p legit total; destruct results; [congruence | reflexivity]).
  assert (Hv : final_verdict scored = "Verified" <-> (60 <=? p)%float = true)
    by (rewrite Hlabel; destruct (60 <=? p)%float; split; congruence).
  assert (Hu : final_verdict scored = "Unverified" <-> (60 <=? p)%float = false)
    by (rewrite Hlabel; destruct (60 <=? p)%float; split; congruence).
  split; [exact Hpct|]. split; [exact Hv|]. split; [exact Hu|].
  intros Hlen. pose proof (score_checked_results results Hne Hlen) as Hc.
  unfold score_checked, binary64_percentage in Hc. fold legit total p in Hc.
  apply andb_prop in Hc. destruct Hc as [Hcmp Hround].
  apply Bool.eqb_prop in Hcmp.
  destruct (binary64_round2 p) as [k|] eqn:Hk; [|discriminate].
  apply andb_prop in Hround. destruct Hround as [Hrange Hnear].
  apply andb_prop in Hrange. destruct Hrange as [Hlo Hhi].
  apply Z.leb_le in Hlo, Hhi, Hnear.
  assert (Hint : final_verdict scored = "Verified" <-> (3 * total <= 5 * legit)%Z)
    by (rewrite Hv, Hcmp; apply Z.leb_le).
  assert (Htotal : (0 < total)%Z)
    by (subst total; destruct results; [congruence | cbn [List.length]; lia]).
  split; [exact Hint|]. exists k. split; [|split; [lia|split; [exact Hnear|]]].
  - rewrite Hpct. unfold py_round2. rewrite Hk.
    now replace (k <? 0)%Z with false by (symmetry; apply Z.ltb_ge; lia).
  - assert (H6 : (3 * total <= 5 * legit)%Z -> (6000 <= k)%Z) by (intros H; nia).
    split.
    + intros H. apply H6, Hint, H.
    + intros Hk6. apply Hu.
      destruct (60 <=? p)%float eqn:E; [|reflexivity].
      symmetry in Hcmp. apply Z.leb_le in Hcmp. apply H6 in Hcmp. lia.
Qed.

(** The boundary cases on floats. *)
Example compute_score_binary64_boundaries :
  compute_score_binary64 (results_with 3 2) = mkScoreUpdate 60 "Verified" "Verified"
  /\ compute_score_binary64 (results_with 1 1)
     = mkScoreUpdate 50 "Unverified" "Unverified"
  /\ compute_score_binary64 (results_with 0 1)
     = mkScoreUpdate 0 "Unverified" "Unverified"
  /\ compute_score_binary64 (results_with 23 137)
     = mkScoreUpdate (1437 / 100) "Unverified" "Unverified"
  /\ compute_score_binary64 [] = mkScoreUpdate 0 "Fake" "Fake".
Proof. repeat split; vm_compute; reflexivity. Qed.

(** C5, as stated, fails: of 4002 results, 2401 legit give the float
    59.99500249875063, which is reported as 60.0 after rounding while the
    label, decided before rounding, is Unverified. *)
Lemma reported_sixty_labelled_unverified :
  legitimacy_percentage (compute_score_binary64 (results_with 2401 1601))
  = 60%float
  /\ final_verdict (compute_score_binary64 (results_with 2401 1601))
     = "Unverified"
  /\ ~ label_follows_reported_float.
Proof.
  assert (Hp : legitimacy_percentage
                 (compute_score_binary64 (results_with 2401 1601)) = 60%float)
    by (vm_compute; reflexivity).
  assert (Hl : final_verdict (compute_score_binary64 (results_with 2401 1601))
               = "Unverified") by (vm_compute; reflexivity).
  split; [exact Hp|]. split; [exact Hl|].
  intros Hrule.
  assert (Hne : results_with 2401 1601 <> []) by (vm_compute; discriminate).
  destruct (Hrule _ Hne) as [_ Hback].
  rewrite Hp, Hl in Hback.
  specialize (Hback ltac:(vm_compute; reflexivity)). discriminate.
Qed.

Lemma hundredths_above k legit total :
  (0 < total)%Z ->
  (inject_Z k - (1 # 2) <= inject_Z legit / inject_Z total * 100 * 100)%Q ->
  ((2 * k - 1) * total <= 20000 * legit)%Z.
Proof.
  intros Hn. destruct total as [|p|p]; try lia.
  unfold Qle, Qminus, Qplus, Qopp, Qdiv, Qmult, Qinv, inject_Z.
  cbn -[Z.mul Pos.mul]. lia.
Qed.

Lemma hundredths_below k legit total :
  (0 < total)%Z ->
  (inject_Z legit / inject_Z total * 100 * 100 <= inject_Z k + (1 # 2))%Q ->
  (20000 * legit <= (2 * k + 1) * total)%Z.
Proof.
  intros Hn. destruct total as [|p|p]; try lia.
  unfold Qle, Qminus, Qplus, Qopp, Qdiv, Qmult, Qinv, inject_Z.
  cbn -[Z.mul Pos.mul]. lia.
Qed.

(** The node of the graph, which takes the quotient exactly, and the
    machine's computation give the same label for up to 200 results, and
    percentages that are at most one hundredth apart. *)
Lemma compute_score_agrees_binary64 (state : VerifyState) :
  List.length (st_claim_results state) <= 200 ->
  st_final_verdict (compute_score state)
  = Some (final_verdict (compute_score_binary64 (st_claim_results state)))
  /\ st_D (compute_score state)
     = Some (D (compute_score_binary64 (st_claim_results state)))
  /\ exists k k' : Z,
       legitimacy_percentage (compute_score_binary64 (st_claim_results state))
       = (float_of_count k / 100)%float
       /\ (st_legitimacy_percentage (compute_score state) == k' # 100)%Q
       /\ (Z.abs (k - k') <= 1)%Z.
Proof.
  intros Hlen. unfold compute_score, compute_score_binary64.
  destruct (st_claim_results state) as [|r rest] eqn:Hres.
  - cbn. repeat split. exists 0%Z, 0%Z.
    split; [reflexivity|]. split; [unfold Qeq; reflexivity | cbn; lia].
  - assert (Hne : (r :: rest) <> []) by discriminate.
    pose proof (score_checked_results (r :: rest) Hne Hlen) as Hc.
    unfold score_checked, binary64_percentage in Hc.
    set (total := Z.of_nat (List.length (r :: rest))) in *.
    set (legit := legit_count (r :: rest)) in *.
    assert (Htotal : (0 < total)%Z) by (subst total; cbn [List.length]; lia).
    set (p := (float_of_count legit / float_of_count total * 100)%float) in *.
    cbn [st_final_verdict st_D st_legitimacy_percentage
         final_verdict D legitimacy_percentage].
    apply andb_prop in Hc. destruct Hc as [Hcmp Hround].
    apply Bool.eqb_prop in Hcmp.
    destruct (binary64_round2 p) as [k|] eqn:Hk; [|discriminate].
    apply andb_prop in Hround. destruct Hround as [Hrange Hnear].
    apply andb_prop in Hrange. destruct Hrange as [Hlo Hhi].
    apply Z.leb_le in Hlo, Hhi, Hnear.
    assert (Hq : Qle_bool 60 (inject_Z legit / inject_Z total * 100)
                 = (60 <=? p)%float).
    { rewrite Hcmp. change 60%Q with (inject_Z 60).
      destruct (3 * total <=? 5 * legit)%Z eqn:E.
      - apply Z.leb_le in E. apply Qle_bool_iff.
        apply percentage_ge; [exact Htotal | lia].
      - apply Z.leb_gt in E.
        destruct (Qle_bool _ _) eqn:Q; [|reflexivity].
        apply Qle_bool_iff, percentage_ge in Q; [lia | exact Htotal]. }
    rewrite Hq. split; [reflexivity|]. split; [reflexivity|].
    exists k, (round_half_even (inject_Z legit / inject_Z total * 100 * 100)).
    split; [|split; [reflexivity|]].
    + unfold py_round2. rewrite Hk.
      now replace (k <? 0)%Z with false by (symmetry; apply Z.ltb_ge; lia).
    + pose proof (round_half_even_near
                    (inject_Z legit / inject_Z total * 100 * 100)) as [Hl Hh].
      apply hundredths_above in Hl; [|exact Htotal].
      apply hundredths_below in Hh; [|exact Htotal].
      nia.
Qed.

(** ** The verifier *)

Section VerifierFacts.

Variable py_repr : json -> string.
Variable json_loads : string -> result json.
Variable W : Type.
Variable model_invoke : W -> string -> string -> result string * W.
Variable search_run : W -> json -> result string * W.

Local Abbreviation verify := (verify_claim py_repr json_loads W model_invoke search_run).

(** The index must name a claim, or nothing is verified. *)
Lemma verify_claim_index_error state w e :
  py_index (st_claims state) (st_current_index state) = Raise e ->
  verify state w = Raise e.
Proof. intros H. unfold verify_claim. now rewrite H. Qed.

(** What the search raises leaves the node as it is. *)
Lemma verify_claim_search_raises state w claim e w1 :
  py_index (st_claims state) (st_current_index state) = Ok claim ->
  search_run w claim = (Raise e, w1) ->
  verify state w = Raise e.
Proof.
  intros Hidx Hsearch. unfold verify_claim.
  rewrite Hidx. cbn [bind]. now rewrite Hsearch.
Qed.

(** The model raising is caught. *)
Lemma verify_claim_model_raises state w claim found w1 e w2 :
  py_index (st_claims state) (st_current_index state) = Ok claim ->
  search_run w claim = (Ok found, w1) ->
  model_invoke w1 verify_system (verify_human py_repr claim found)
  = (Raise e, w2) ->
  verify state w = Ok (record_result state (fallback_result claim), w2).
Proof.
  intros Hidx Hsearch Hmodel. unfold verify_claim.
  rewrite Hidx. cbn [bind]. rewrite Hsearch. cbn [bind].
  now rewrite Hmodel.
Qed.

(** A reply that does not parse is caught. *)
Lemma verify_claim_parse_fails state w claim found w1 content w2 e :
  py_index (st_claims state) (st_current_index state) = Ok claim ->
  search_run w claim = (Ok found, w1) ->
  model_invoke w1 verify_system (verify_human py_repr claim found)
  = (Ok content, w2) ->
  extract_json json_loads content = Raise e ->
  verify state w = Ok (record_result state (fallback_result claim), w2).
Proof.
  intros Hidx Hsearch Hmodel Hparse. unfold verify_claim.
  rewrite Hidx. cbn [bind]. rewrite Hsearch. cbn [bind].
  rewrite Hmodel. cbn [bind]. now rewrite Hparse.
Qed.

(** A reply that parses to an object gives the result its two fields,
    each with its default. *)
Lemma verify_claim_parsed state w claim found w1 content w2 d :
  py_index (st_claims state) (st_current_index state) = Ok claim ->
  search_run w claim = (Ok found, w1) ->
  model_invoke w1 verify_system (verify_human py_repr claim found)
  = (Ok content, w2) ->
  extract_json json_loads content = Ok (JObj d) ->
  verify state w
  = Ok (record_result state
          (mkClaimResult claim
             (match dict_lookup "verdict" d with
              | Some v => v
              | None => JStr "not legit"
              end)
             (match dict_lookup "explanation" d with
              | Some v => v
              | None => JStr EmptyString
              end)),
        w2).
Proof.
  intros Hidx Hsearch Hmodel Hparse. unfold verify_claim.
  rewrite Hidx. cbn [bind]. rewrite Hsearch. cbn [bind].
  rewrite Hmodel. cbn [bind]. now rewrite Hparse.
Qed.

(** C9. When the reply parses to an object, a missing verdict is stored
    as "not legit" and a missing explanation as the empty string, which
    is not the explanation of a failed verification. *)
Theorem verify_claim_missing_fields state w claim found w1 content w2 d :
  py_index (st_claims state) (st_current_index state) = Ok claim ->
  search_run w claim = (Ok found, w1) ->
  model_invoke w1 verify_system (verify_human py_repr claim found)
  = (Ok content, w2) ->
  extract_json json_loads content = Ok (JObj d) ->
  exists r,
    verify state w = Ok (record_result state r, w2)
    /\ r_claim r = claim
    /\ (dict_lookup "verdict" d = None -> r_verdict r = JStr "not legit")
    /\ (dict_lookup "explanation" d = None ->
        r_explanation r = JStr EmptyString
        /\ r_explanation r <> JStr "Verification failed.").
Proof.
  intros Hidx Hsearch Hmodel Hparse.
  eexists. split; [exact (verify_claim_parsed _ _ _ _ _ _ _ _ Hidx Hsearch Hmodel Hparse)|].
  cbn [r_claim r_verdict r_explanation]. split; [reflexivity|]. split.
  - now intros ->.
  - intros ->. split; [reflexivity | discriminate].
Qed.

(** C10. The verdict of the reply is stored as it is, whatever it is; a
    stored verdict adds to the count of legit results exactly when it is
    the string "legit", and the count is the number of such results. *)
Theorem verdict_stored_unvalidated state w claim found w1 content w2 d v :
  py_index (st_claims state) (st_current_index state) = Ok claim ->
  search_run w claim = (Ok found, w1) ->
  model_invoke w1 verify_system (verify_human py_repr claim found)
  = (Ok content, w2) ->
  extract_json json_loads content = Ok (JObj d) ->
  dict_lookup "verdict" d = Some v ->
  exists r,
    verify state w = Ok (record_result state r, w2)
    /\ r_verdict r = v
    /\ legit_count (st_claim_results (record_result state r))
       = (legit_count (st_claim_results state)
          + (if py_eq_str v "legit" then 1 else 0))%Z
    /\ (py_eq_str v "legit" = true <-> v = JStr "legit")
    /\ (forall results,
          legit_count results
          = Z.of_nat (List.length
              (filter (fun r' => py_eq_str (r_verdict r') "legit") results)))
    /\ (st_final_verdict (compute_score (record_result state r))
        = Some "Verified"
        <-> (3 * Z.of_nat (List.length (st_claim_results state) + 1)
             <= 5 * (legit_count (st_claim_results state)
                     + (if py_eq_str v "legit" then 1 else 0)))%Z).
Proof.
  intros Hidx Hsearch Hmodel Hparse Hv.
  eexists. split; [exact (verify_claim_parsed _ _ _ _ _ _ _ _ Hidx Hsearch Hmodel Hparse)|].
  rewrite Hv. cbn [r_verdict record_result st_claim_results].
  assert (Hcount : legit_count
                     (st_claim_results state
                      ++ [mkClaimResult claim v
                            match dict_lookup "explanation" d with
                            | Some v0 => v0
                            | None => JStr EmptyString
                            end])
                   = (legit_count (st_claim_results state)
                      + (if py_eq_str v "legit" then 1 else 0))%Z).
  { rewrite legit_count_app. cbn [legit_count r_verdict]. lia. }
  split; [reflexivity|]. split; [exact Hcount|]. split; [|split].
  - apply py_eq_str_iff.
  - apply legit_count_filter.
  - rewrite compute_score_verified_iff
      by (cbn [record_result st_claim_results];
          destruct (st_claim_results state); discriminate).
    cbn [record_result st_claim_results]. rewrite Hcount, length_app.
    cbn [List.length]. reflexivity.
Qed.

(** Whenever the node returns, it has appended one result for the claim
    at the index and moved the index by one. *)
Lemma verify_claim_returns state w state' w' :
  verify state w = Ok (state', w') ->
  exists claim verdict explanation,
    py_index (st_claims state) (st_current_index state) = Ok claim
    /\ state' = record_result state (mkClaimResult claim verdict explanation).
Proof.
  unfold verify_claim.
  destruct (py_index (st_claims state) (st_current_index state)) as [claim|e];
    cbn [bind]; [|discriminate].
  destruct (search_run w claim) as [[found|e] w1]; cbn [bind]; [|discriminate].
  destruct (model_invoke w1 verify_system (verify_human py_repr claim found))
    as [response w2].
  destruct (try_except _ _) as [verdict explanation].
  intros [= <- <-]. now exists claim, verdict, explanation.
Qed.

End VerifierFacts.

(** The reply [{}] has neither field: both defaults are stored. *)
Lemma verify_claim_missing_fields_witness :
  exists r,
    demo_verify_claim state_one_claim (script_answers [Ok text_empty_object])
    = Ok (record_result state_one_claim r, script_answers [])
    /\ r_claim r = JStr "c"
    /\ (dict_lookup "verdict" [] = None -> r_verdict r = JStr "not legit")
    /\ (dict_lookup "explanation" [] = None ->
        r_explanation r = JStr EmptyString
        /\ r_explanation r <> JStr "Verification failed.").
Proof.
  apply (verify_claim_missing_fields no_repr table_json_loads Script
           scripted_model scripted_search
           state_one_claim (script_answers [Ok text_empty_object])
           (JStr "c") "evidence" (script_answers [Ok text_empty_object])
           text_empty_object (script_answers []) []);
    reflexivity.
Defined.

(** The reply with verdict "Legit" is stored as such and does not count. *)
Lemma verdict_stored_unvalidated_witness :
  exists r,
    demo_verify_claim state_one_claim (script_answers [Ok text_capital_legit])
    = Ok (record_result state_one_claim r, script_answers [])
    /\ r_verdict r = JStr "Legit"
    /\ legit_count (st_claim_results (record_result state_one_claim r))
       = (legit_count (st_claim_results state_one_claim) + 0)%Z.
Proof.
  destruct (verdict_stored_unvalidated no_repr table_json_loads Script
              scripted_model scripted_search
              state_one_claim (script_answers [Ok text_capital_legit])
              (JStr "c") "evidence" (script_answers [Ok text_capital_legit])
              text_capital_legit (script_answers [])
              [("verdict", JStr "Legit")] (JStr "Legit")
              eq_refl eq_refl eq_refl eq_refl eq_refl)
    as (r & Hrun & Hv & Hcount & _).
  exists r. repeat split; assumption.
Defined.

(** C2, at the failing input: the search raising while the only claim is
    verified is not turned into the fallback result; the node raises what
    the search raised, and no result is appended. *)
Theorem verify_claim_search_failure_escapes :
  demo_verify_claim state_one_claim (script_search_fails [Ok text_legit])
  = Raise CollaboratorError.
Proof. reflexivity. Qed.

(** The two failures that are caught, on the same state. *)
Example verify_claim_generation_failure_caught :
  demo_verify_claim state_one_claim (script_answers [Raise CollaboratorError])
  = Ok (record_result state_one_claim (fallback_result (JStr "c")),
        script_answers []).
Proof. reflexivity. Qed.

Example verify_claim_parse_failure_caught :
  demo_verify_claim state_one_claim (script_answers [Ok "no object here"])
  = Ok (record_result state_one_claim (fallback_result (JStr "c")),
        script_answers []).
Proof. reflexivity. Qed.

(** ** The graph: invariants of a run *)

Lemma py_index_in_range {A : Type} (l : list A) (i : Z) (a : A) :
  py_index l i = Ok a ->
  (0 <= i)%Z ->
  (i < Z.of_nat (List.length l))%Z.
Proof.
  unfold py_index. intros H Hi.
  destruct (i <? 0)%Z eqn:Hneg; [apply Z.ltb_lt in Hneg; lia|].
  destruct ((0 <=? i)%Z && (i <? Z.of_nat (List.length l))%Z) eqn:Hin;
    [|discriminate].
  apply andb_prop in Hin. destruct Hin as [_ Hin]. now apply Z.ltb_lt in Hin.
Qed.

Section GraphFacts.

Variable py_repr : json -> string.
Variable json_loads : string -> result json.
Variable W : Type.
Variable model_invoke : W -> string -> string -> result string * W.
Variable search_run : W -> json -> result string * W.

Local Abbreviation plan := (plan_claims json_loads W model_invoke).
Local Abbreviation extract := (extract_next_claim py_repr json_loads W model_invoke).
Local Abbreviation verify := (verify_claim py_repr json_loads W model_invoke search_run).
Local Abbreviation step1 := (@step py_repr json_loads W model_invoke search_run).
Local Abbreviation reach := (@reaches py_repr json_loads W model_invoke search_run).
Local Abbreviation stepsk := (@steps py_repr json_loads W model_invoke search_run).

(** The planner never raises and resets the working keys. *)
Lemma plan_claims_resets state w :
  exists p,
    fst (plan state w)
    = mkState (st_A state) p [] 0%Z [] 0%Q
        (st_final_verdict state) (st_D state) (st_final_explanation state).
Proof.
  unfold plan_claims.
  destruct (model_invoke w plan_system (plan_human (st_A state))) as [r w'].
  eexists. reflexivity.
Qed.

(** The extractor, when it returns, leaves the state or appends a claim. *)
Lemma extract_next_claim_returns state w state' w' :
  extract state w = Ok (state', w') ->
  state' = state \/ exists claim, state' = add_claim state claim.
Proof.
  unfold extract_next_claim.
  destruct (model_invoke w extract_system _) as [response w1].
  destruct (py_get _ "done" JNull) as [done|e]; cbn [bind]; [|discriminate].
  destruct (truthy done).
  - intros [= <- <-]. now left.
  - destruct (py_getitem _ "claim") as [claim|e]; cbn [bind]; [|discriminate].
    intros [= <- <-]. right. now exists claim.
Qed.

(** Every way out of a step, by node. *)
Lemma step_cases n state w n' state' w' :
  step1 n state w = Ok (n', state', w') ->
  match n with
  | Node_plan_claims =>
      n' = Node_extract_next_claim /\ (state', w') = plan state w
  | Node_extract_next_claim =>
      extract state w = Ok (state', w')
      /\ should_extract_more state' = Ok n'
  | Node_verify_claim =>
      verify state w = Ok (state', w')
      /\ n' = should_continue_verification state'
  | Node_compute_score =>
      n' = Node_final_explanation /\ state' = compute_score state /\ w' = w
  | Node_final_explanation =>
      n' = END /\ state' = final_explanation py_repr state /\ w' = w
  | END => n' = END /\ state' = state /\ w' = w
  end.
Proof.
  destruct n; cbn [step].
  - destruct (plan state w) as [s1 w1]. intros [= <- <- <-]. auto.
  - destruct (extract state w) as [[s1 w1]|e]; cbn [bind fst snd]; [|discriminate].
    destruct (should_extract_more s1) as [next|e] eqn:Hnext; cbn [bind];
      [|discriminate].
    intros [= <- <- <-]. auto.
  - destruct (verify state w) as [[s1 w1]|e]; cbn [bind fst snd]; [|discriminate].
    intros [= <- <- <-]. auto.
  - intros [= <- <- <-]. auto.
  - intros [= <- <- <-]. auto.
  - intros [= <- <- <-]. auto.
Qed.

Lemma step_keeps_index_ok n state w n' state' w' :
  index_ok state ->
  step1 n state w = Ok (n', state', w') ->
  index_ok state'.
Proof.
  intros [Hlen Hrange] Hstep. apply step_cases in Hstep. destruct n.
  - destruct Hstep as [_ Hplan].
    destruct (plan_claims_resets state w) as [p Hp].
    rewrite <- Hplan in Hp. cbn [fst] in Hp. subst state'.
    unfold index_ok. cbn. lia.
  - destruct Hstep as [Hext _].
    apply extract_next_claim_returns in Hext.
    destruct Hext as [->|[claim ->]]; [now split|].
    unfold index_ok, add_claim. cbn [st_claim_results st_current_index st_claims].
    rewrite length_app. cbn [List.length]. lia.
  - destruct Hstep as [Hver _].
    apply verify_claim_returns in Hver.
    destruct Hver as (claim & verdict & explanation & Hidx & ->).
    apply py_index_in_range in Hidx; [|lia].
    unfold index_ok, record_result.
    cbn [st_claim_results st_current_index st_claims].
    rewrite length_app. cbn [List.length]. lia.
  - destruct Hstep as (_ & -> & _). unfold index_ok, compute_score.
    destruct (st_claim_results state) eqn:E; cbn; rewrite ?E; cbn in *; lia.
  - destruct Hstep as (_ & -> & _). now split.
  - destruct Hstep as (_ & -> & _). now split.
Qed.

(** C6. Whatever the state handed to the graph holds besides the article,
    the planner leaves the index at 0 with no claim and no result, and in
    every configuration of the run after the planner (so after each
    extractor and each verifier iteration) the number of results equals
    the index and the index lies between 0 and the number of claims. Each
    verifier iteration that returns moves the index by exactly one and
    appends exactly one result, the claims untouched. From the state
    [init_state] the same holds of the first configuration too. *)
Theorem index_invariant (content : string) (w : W) :
  (forall start w0 n state w',
      reach (Node_plan_claims, start, w0) (n, state, w') ->
      n <> Node_plan_claims ->
      Z.of_nat (List.length (st_claim_results state)) = st_current_index state
      /\ (0 <= st_current_index state
          <= Z.of_nat (List.length (st_claims state)))%Z)
  /\ (forall start w0,
        st_current_index (fst (plan start w0)) = 0%Z
        /\ st_claim_results (fst (plan start w0)) = []
        /\ st_claims (fst (plan start w0)) = []
        /\ st_A (fst (plan start w0)) = st_A start)
  /\ (forall state w1 state' w2,
        verify state w1 = Ok (state', w2) ->
        st_current_index state' = (st_current_index state + 1)%Z
        /\ List.length (st_claim_results state')
           = S (List.length (st_claim_results state))
        /\ st_claims state' = st_claims state)
  /\ (forall n state w',
        reach (Node_plan_claims, init_state content, w) (n, state, w') ->
        Z.of_nat (List.length (st_claim_results state)) = st_current_index state
        /\ (0 <= st_current_index state
            <= Z.of_nat (List.length (st_claims state)))%Z).
Proof.
  split; [|split; [|split]].
  - intros start w0 n state w' Hreach.
    change (n <> Node_plan_claims -> index_ok state).
    remember (Node_plan_claims, start, w0) as c0 eqn:E0.
    remember (n, state, w') as c eqn:E.
    revert n state w' E.
    induction Hreach as [|n1 s1 w1 c' Hreach IH Hnot Hstep];
      intros n state w' E Hn.
    + subst. injection E as <- <- <-. congruence.
    + subst c'. specialize (IH n1 s1 w1 eq_refl).
      destruct n1;
        try (apply (step_keeps_index_ok _ _ _ _ _ _ (IH ltac:(discriminate)) Hstep)).
      apply step_cases in Hstep. destruct Hstep as [_ Hplan].
      destruct (plan_claims_resets s1 w1) as [p Hp].
      rewrite <- Hplan in Hp. cbn [fst] in Hp. subst state.
      unfold index_ok. cbn. lia.
  - intros start w0. destruct (plan_claims_resets start w0) as [p ->].
    repeat split.
  - intros state w1 state' w2 Hver.
    apply verify_claim_returns in Hver.
    destruct Hver as (claim & verdict & explanation & _ & ->).
    unfold record_result. cbn [st_current_index st_claim_results st_claims].
    rewrite length_app. cbn [List.length]. repeat split. lia.
  - intros n state w' Hreach.
    change (index_ok state).
    remember (Node_plan_claims, init_state content, w) as c0 eqn:E0.
    remember (n, state, w') as c eqn:E.
    revert n state w' E.
    induction Hreach as [|n1 s1 w1 c' Hreach IH Hnot Hstep];
      intros n state w' E.
    + subst. injection E as <- <- <-. unfold index_ok. cbn. lia.
    + subst c'. specialize (IH n1 s1 w1 eq_refl).
      exact (step_keeps_index_ok _ _ _ _ _ _ IH Hstep).
Qed.

Lemma should_extract_more_cases state n :
  should_extract_more state = Ok n ->
  exists N,
    py_len (st_plan state) = Ok N
    /\ (n = Node_extract_next_claim /\ List.length (st_claims state) < N
        \/ n = Node_verify_claim /\ N <= List.length (st_claims state)).
Proof.
  unfold should_extract_more.
  destruct (py_len (st_plan state)) as [N|e]; cbn [bind]; [|discriminate].
  destruct (Nat.ltb_spec (List.length (st_claims state)) N);
    intros [= <-]; exists N; auto.
Qed.

Lemma step_keeps_claims_bounded n state w n' state' w' :
  claims_bounded n state ->
  step1 n state w = Ok (n', state', w') ->
  claims_bounded n' state'.
Proof.
  intros Hinv Hstep. apply step_cases in Hstep. destruct n.
  - destruct Hstep as [-> Hplan].
    destruct (plan_claims_resets state w) as [p Hp].
    rewrite <- Hplan in Hp. cbn [fst] in Hp. subst state'. now left.
  - destruct Hstep as [Hext Hroute].
    apply should_extract_more_cases in Hroute.
    destruct Hroute as (N & HN & [[-> Hlt]|[-> Hge]]).
    + right. now exists N.
    + apply extract_next_claim_returns in Hext.
      destruct Hext as [->|[claim ->]].
      * destruct Hinv as [Hnil|(N0 & HN0 & Hlt)].
        -- left. rewrite Hnil. cbn. lia.
        -- right. exists N0. split; [assumption | lia].
      * cbn [claims_bounded] in *. unfold add_claim in *.
        cbn [st_claims st_plan] in *.
        rewrite length_app in *. cbn [List.length] in *.
        destruct Hinv as [Hnil|(N0 & HN0 & Hlt)].
        -- left. rewrite Hnil. cbn. lia.
        -- right. exists N0. split; [assumption | lia].
  - destruct Hstep as [Hver ->].
    apply verify_claim_returns in Hver.
    destruct Hver as (claim & verdict & explanation & _ & ->).
    unfold should_continue_verification.
    destruct (_ <? _)%Z; exact Hinv.
  - destruct Hstep as (-> & -> & _). unfold claims_bounded, compute_score in *.
    destruct (st_claim_results state); exact Hinv.
  - destruct Hstep as (-> & -> & _). exact Hinv.
  - destruct Hstep as (-> & -> & _). exact Hinv.
Qed.

Lemma reach_claims_bounded content w n state w' :
  reach (Node_plan_claims, init_state content, w) (n, state, w') ->
  claims_bounded n state.
Proof.
  intros Hreach.
  remember (Node_plan_claims, init_state content, w) as c0 eqn:E0.
  remember (n, state, w') as c eqn:E.
  revert n state w' E.
  induction Hreach as [|n1 s1 w1 c' Hreach IH Hnot Hstep];
    intros n state w' E.
  - subst. injection E as <- <- <-. reflexivity.
  - subst c'. specialize (IH n1 s1 w1 eq_refl).
    exact (step_keeps_claims_bounded _ _ _ _ _ _ IH Hstep).
Qed.

(** C3, as the code has it. The extractor runs once after the planner
    whatever the plan, and again only while fewer claims are held than
    the plan is long; each of its runs appends at most one claim and
    leaves the plan alone. So in every configuration of a run at most
    max(N, 1) claims have been appended for a plan of length N: at most N
    for a plan that is not empty, at most one for an empty plan. *)
Theorem extraction_bound (content : string) (w : W) :
  (forall n state w' N,
      reach (Node_plan_claims, init_state content, w) (n, state, w') ->
      py_len (st_plan state) = Ok N ->
      List.length (st_claims state) <= Nat.max N 1)
  /\ (forall state w',
        reach (Node_plan_claims, init_state content, w)
          (Node_extract_next_claim, state, w') ->
        st_claims state = []
        \/ exists N, py_len (st_plan state) = Ok N
                     /\ List.length (st_claims state) < N)
  /\ (exists state' w',
        step1 Node_plan_claims (init_state content) w
        = Ok (Node_extract_next_claim, state', w'))
  /\ (forall state w1 n' state' w2,
        step1 Node_extract_next_claim state w1 = Ok (n', state', w2) ->
        st_plan state' = st_plan state
        /\ (st_claims state' = st_claims state
            \/ exists claim,
                 st_claims state' = (st_claims state ++ [claim])%list)).
Proof.
  split; [|split; [|split]].
  - intros n state w' N Hreach HN.
    apply reach_claims_bounded in Hreach.
    assert (Hb : List.length (st_claims state) <= 1
                 \/ List.length (st_claims state) <= N).
    { destruct n; cbn [claims_bounded] in Hreach.
      - left. rewrite Hreach. cbn. lia.
      - destruct Hreach as [Hnil|(N0 & HN0 & Hlt)].
        + left. rewrite Hnil. cbn. lia.
        + right. rewrite HN in HN0. injection HN0 as <-. lia.
      - destruct Hreach as [H1|(N0 & HN0 & Hle)]; [now left|].
        right. rewrite HN in HN0. now injection HN0 as <-.
      - destruct Hreach as [H1|(N0 & HN0 & Hle)]; [now left|].
        right. rewrite HN in HN0. now injection HN0 as <-.
      - destruct Hreach as [H1|(N0 & HN0 & Hle)]; [now left|].
        right. rewrite HN in HN0. now injection HN0 as <-.
      - destruct Hreach as [H1|(N0 & HN0 & Hle)]; [now left|].
        right. rewrite HN in HN0. now injection HN0 as <-. }
    lia.
  - intros state w' Hreach. exact (reach_claims_bounded _ _ _ _ _ Hreach).
  - cbn [step]. destruct (plan (init_state content) w) as [s1 w1].
    now exists s1, w1.
  - intros state w1 n' state' w2 Hstep. apply step_cases in Hstep.
    destruct Hstep as [Hext _].
    apply extract_next_claim_returns in Hext.
    destruct Hext as [->|[claim ->]]; split; auto.
    right. now exists claim.
Qed.







(** A run never brings an empty list of results to the aggregator: the
    verifier is entered before it and has appended a result whenever it
    returned. The branch of [compute_score] for no result, with its label
    Fake, is not taken in any run. *)
Lemma aggregation_has_results content w n state w' :
  reach (Node_plan_claims, init_state content, w) (n, state, w') ->
  n = Node_compute_score \/ n = Node_final_explanation \/ n = END ->
  st_claim_results state <> []
  /\ (n <> Node_compute_score -> st_D state <> Some "Fake").
Proof.
  intros Hreach.
  remember (Node_plan_claims, init_state content, w) as c0 eqn:E0.
  remember (n, state, w') as c eqn:E.
  revert n state w' E.
  induction Hreach as [|n1 s1 w1 c' Hreach IH Hnot Hstep];
    intros n state w' E Hn.
  - subst. injection E as <- <- <-. destruct Hn as [|[|]]; discriminate.
  - subst c'. specialize (IH n1 s1 w1 eq_refl). apply step_cases in Hstep.
    destruct n1.
    + destruct Hstep as [-> _]. destruct Hn as [|[|]]; discriminate.
    + destruct Hstep as [_ Hroute]. apply should_extract_more_cases in Hroute.
      destruct Hroute as (N & _ & [[-> _]|[-> _]]);
        destruct Hn as [|[|]]; discriminate.
    + destruct Hstep as [Hver ->]. apply verify_claim_returns in Hver.
      destruct Hver as (claim & verdict & explanation & _ & ->).
      unfold should_continue_verification in *.
      destruct (_ <? _)%Z; [destruct Hn as [|[|]]; discriminate|].
      split; [|congruence].
      cbn [record_result st_claim_results].
      destruct (st_claim_results s1); discriminate.
    + destruct Hstep as (-> & -> & _).
      destruct IH as [Hres _]; [now left|].
      unfold compute_score.
      destruct (st_claim_results s1) as [|r rest] eqn:Eres; [congruence|].
      cbn [st_claim_results st_D].
      split; [discriminate|]. intros _.
      destruct (Qle_bool _ _); discriminate.
    + destruct Hstep as (-> & -> & _).
      destruct IH as [Hres HD]; [right; now left|].
      split; [exact Hres|]. intros _. apply HD. discriminate.
    + congruence.
Qed.

(** ** The planner and the plan it leaves *)

(** X3. The planner returns whatever the model does. It keeps the article and
    the three keys written last, and resets the claims, the index, the
    results and the percentage. The plan it leaves is the empty list,
    unless the reply parsed to an object with the key plan: then it is the
    value under that key as it is, a list or not. *)
Theorem plan_claims_policy (state : VerifyState) (w : W) :
  let response := fst (model_invoke w plan_system (plan_human (st_A state))) in
  let planned := fst (plan state w) in
  snd (plan state w)
  = snd (model_invoke w plan_system (plan_human (st_A state)))
  /\ planned
     = mkState (st_A state) (st_plan planned) [] 0%Z [] 0%Q
         (st_final_verdict state) (st_D state) (st_final_explanation state)
  /\ (st_plan planned <> JArr [] ->
      exists content d,
        response = Ok content
        /\ extract_json json_loads content = Ok (JObj d)
        /\ dict_lookup "plan" d = Some (st_plan planned))
  /\ (forall content d p,
        response = Ok content ->
        extract_json json_loads content = Ok (JObj d) ->
        dict_lookup "plan" d = Some p ->
        st_plan planned = p).
Proof.
  cbv zeta. unfold plan_claims.
  destruct (model_invoke w plan_system (plan_human (st_A state)))
    as [response w1].
  cbn [fst snd st_plan]. split; [reflexivity|]. split; [reflexivity|]. split.
  - intros Hplan. destruct response as [content|e]; cbn [bind try_except] in *;
      [|congruence].
    destruct (extract_json json_loads content) as [parsed|e] eqn:Hparse;
      cbn [bind try_except] in *; [|congruence].
    destruct parsed; cbn [py_get try_except] in *; try congruence.
    destruct (dict_lookup "plan" d) as [p|] eqn:Hd; [|congruence].
    now exists content, d.
  - intros content d p -> Hparse Hd. cbn [bind]. rewrite Hparse.
    cbn [bind py_get try_except]. now rewrite Hd.
Qed.

(** ** A plan that has no length *)

Lemma has_len_py_len v :
  (has_len v = true -> exists N, py_len v = Ok N)
  /\ (has_len v = false -> py_len v = Raise TypeError).
Proof.
  destruct v; cbn [has_len py_len]; split; intros H;
    try discriminate; try reflexivity; eexists; reflexivity.
Qed.

(** X5. The plan is never checked to be a list. When it is null, a boolean or
    a number, the router after the extractor raises [TypeError]: no step
    leads out of the extractor, and a run whose planner left such a plan
    is over after its first extraction, whatever the fuel. *)
Theorem unsized_plan_stops_run (content : string) (w : W) :
  has_len (st_plan (fst (plan (init_state content) w))) = false ->
  (forall state, st_plan state = st_plan (fst (plan (init_state content) w)) ->
                 should_extract_more state = Raise TypeError)
  /\ forall fuel,
       exists e,
         run py_repr json_loads model_invoke search_run (2 + fuel)
           Node_plan_claims (init_state content) w
         = Aborted W e.
Proof.
  intros Hlen. split.
  - intros state Hplan. unfold should_extract_more. rewrite Hplan.
    now rewrite (proj2 (has_len_py_len _) Hlen).
  - intros fuel. cbn [Nat.add run step].
    destruct (plan (init_state content) w) as [s1 w1] eqn:Hp.
    cbn [fst] in Hlen.
    destruct (extract s1 w1) as [[s2 w2]|e] eqn:Hext;
      cbn [step]; rewrite Hext; cbn [bind fst snd].
    + assert (Hsame : st_plan s2 = st_plan s1).
      { apply extract_next_claim_returns in Hext.
        destruct Hext as [->|[claim ->]]; reflexivity. }
      unfold should_extract_more. rewrite Hsame.
      rewrite (proj2 (has_len_py_len _) Hlen). cbn [bind].
      now exists TypeError.
    + now exists e.
Qed.

(** ** The pipeline only moves forward *)

Lemma compute_score_keeps state :
  st_A (compute_score state) = st_A state
  /\ st_plan (compute_score state) = st_plan state
  /\ st_claims (compute_score state) = st_claims state
  /\ st_current_index (compute_score state) = st_current_index state
  /\ st_claim_results (compute_score state) = st_claim_results state.
Proof.
  unfold compute_score. destruct (st_claim_results state) eqn:E;
    cbn; rewrite ?E; repeat split.
Qed.

Lemma step_forward n state w n' state' w' :
  step1 n state w = Ok (n', state', w') ->
  node_rank n <= node_rank n'
  /\ n' <> Node_plan_claims
  /\ st_A state' = st_A state
  /\ (n <> Node_plan_claims ->
      st_plan state' = st_plan state
      /\ (exists more, st_claims state' = (st_claims state ++ more)%list)
      /\ (exists more,
          st_claim_results state' = (st_claim_results state ++ more)%list)).
Proof.
  intros Hstep. apply step_cases in Hstep. destruct n.
  - destruct Hstep as [-> Hplan].
    destruct (plan_claims_resets state w) as [p Hp].
    rewrite <- Hplan in Hp. cbn [fst] in Hp. subst state'.
    cbn. repeat split; try lia; congruence.
  - destruct Hstep as [Hext Hroute].
    apply should_extract_more_cases in Hroute.
    apply extract_next_claim_returns in Hext.
    assert (Hn : node_rank Node_extract_next_claim <= node_rank n'
                 /\ n' <> Node_plan_claims)
      by (destruct Hroute as (N & _ & [[-> _]|[-> _]]); cbn;
          split; try lia; discriminate).
    destruct Hn as [Hrank Hnp]. split; [exact Hrank|]. split; [exact Hnp|].
    destruct Hext as [->|[claim ->]].
    + split; [reflexivity|]. intros _. split; [reflexivity|].
      split; exists []; now rewrite app_nil_r.
    + split; [reflexivity|]. intros _. split; [reflexivity|]. split.
      * now exists [claim].
      * exists []. cbn. now rewrite app_nil_r.
  - destruct Hstep as [Hver ->]. apply verify_claim_returns in Hver.
    destruct Hver as (claim & verdict & explanation & _ & ->).
    split; [|split; [|split; [reflexivity|]]].
    + unfold should_continue_verification. destruct (_ <? _)%Z; cbn; lia.
    + unfold should_continue_verification. destruct (_ <? _)%Z; discriminate.
    + intros _. split; [reflexivity|]. split.
      * exists []. cbn. now rewrite app_nil_r.
      * now exists [mkClaimResult claim verdict explanation].
  - destruct Hstep as (-> & -> & _).
    destruct (compute_score_keeps state) as (HA & HP & HC & _ & HR).
    split; [cbn; lia|]. split; [discriminate|]. split; [exact HA|].
    intros _. split; [exact HP|].
    split; exists []; rewrite app_nil_r; assumption.
  - destruct Hstep as (-> & -> & _).
    split; [cbn; lia|]. split; [discriminate|]. split; [reflexivity|].
    intros _. split; [reflexivity|]. split; exists []; now rewrite app_nil_r.
  - destruct Hstep as (-> & -> & _).
    split; [cbn; lia|]. split; [discriminate|]. split; [reflexivity|].
    intros _. split; [reflexivity|]. split; exists []; now rewrite app_nil_r.
Qed.

(** X6. Between any two configurations of a run the graph has not moved back
    to an earlier node and the article is the same; from the extractor on,
    the plan is the same too, and the claims and the results have only
    grown at their end. *)
Theorem pipeline_moves_forward n state w n' state' w' :
  reach (n, state, w) (n', state', w') ->
  node_rank n <= node_rank n'
  /\ st_A state' = st_A state
  /\ (n <> Node_plan_claims ->
      st_plan state' = st_plan state
      /\ (exists more, st_claims state' = (st_claims state ++ more)%list)
      /\ (exists more,
          st_claim_results state' = (st_claim_results state ++ more)%list)).
Proof.
  intros Hreach.
  remember (n, state, w) as c0 eqn:E0.
  remember (n', state', w') as c eqn:E.
  revert n' state' w' E.
  induction Hreach as [|n1 s1 w1 c' Hreach IH Hnot Hstep];
    intros n' state' w' E.
  - subst. injection E as <- <- <-.
    split; [lia|]. split; [reflexivity|]. intros _. split; [reflexivity|].
    split; exists []; now rewrite app_nil_r.
  - subst c'. destruct (IH n1 s1 w1 eq_refl) as (Hrank & HA & Hrest).
    destruct (step_forward _ _ _ _ _ _ Hstep) as (Hrank' & _ & HA' & Hrest').
    split; [lia|]. split; [congruence|]. intros Hn.
    destruct (Hrest Hn) as (HP & [mc Hc] & [mr Hr]).
    assert (Hn1 : n1 <> Node_plan_claims)
      by (intros ->; destruct n; cbn in Hrank; congruence || lia).
    destruct (Hrest' Hn1) as (HP' & [mc' Hc'] & [mr' Hr']).
    split; [congruence|]. split.
    + exists (mc ++ mc')%list. rewrite Hc', Hc. now rewrite app_assoc.
    + exists (mr ++ mr')%list. rewrite Hr', Hr. now rewrite app_assoc.
Qed.

(** ** Every claim is verified once, in the order of extraction *)

Lemma py_index_nth {A : Type} (l : list A) (i : Z) (a : A) :
  py_index l i = Ok a -> (0 <= i)%Z -> nth_error l (Z.to_nat i) = Some a.
Proof.
  unfold py_index. intros H Hi.
  destruct (i <? 0)%Z eqn:Hneg; [apply Z.ltb_lt in Hneg; lia|].
  destruct ((0 <=? i)%Z && (i <? Z.of_nat (List.length l))%Z); [|discriminate].
  destruct (nth_error l (Z.to_nat i)); [congruence | discriminate].
Qed.

Lemma firstn_succ_nth {A : Type} (l : list A) (k : nat) (a : A) :
  nth_error l k = Some a -> firstn (S k) l = (firstn k l ++ [a])%list.
Proof.
  revert k. induction l as [|x l IH]; intros [|k] H; cbn in *; try discriminate.
  - now injection H as ->.
  - now rewrite (IH k H).
Qed.

Lemma firstn_app_within {A : Type} (l more : list A) (k : nat) :
  k <= List.length l -> firstn k (l ++ more) = firstn k l.
Proof.
  intros Hk. rewrite firstn_app.
  replace (k - List.length l) with 0 by lia. cbn. now rewrite app_nil_r.
Qed.

Lemma step_keeps_verified_in_order n state w n' state' w' :
  verified_in_order n state ->
  step1 n state w = Ok (n', state', w') ->
  verified_in_order n' state'.
Proof.
  intros (Hok & Hmap & Hdone) Hstep.
  pose proof (step_keeps_index_ok _ _ _ _ _ _ Hok Hstep) as Hok'.
  split; [exact Hok'|]. clear Hok'.
  destruct Hok as [Hlen Hrange].
  apply step_cases in Hstep. destruct n.
  - destruct Hstep as [-> Hplan].
    destruct (plan_claims_resets state w) as [p Hp].
    rewrite <- Hplan in Hp. cbn [fst] in Hp. subst state'.
    split; [reflexivity|]. cbn. lia.
  - destruct Hstep as [Hext Hroute].
    apply should_extract_more_cases in Hroute.
    assert (Hrank : node_rank n' < 3)
      by (destruct Hroute as (N & _ & [[-> _]|[-> _]]); cbn; lia).
    apply extract_next_claim_returns in Hext.
    destruct Hext as [->|[claim ->]].
    + split; [exact Hmap | lia].
    + split; [|lia]. cbn [add_claim st_claim_results st_current_index st_claims].
      rewrite firstn_app_within by lia. exact Hmap.
  - destruct Hstep as [Hver ->]. apply verify_claim_returns in Hver.
    destruct Hver as (claim & verdict & explanation & Hidx & ->).
    pose proof (py_index_in_range _ _ _ Hidx (proj1 Hrange)) as Hlt.
    apply py_index_nth in Hidx; [|lia].
    cbn [record_result st_claim_results st_current_index st_claims]. split.
    + rewrite map_app, Hmap. cbn [map r_claim].
      replace (Z.to_nat (st_current_index state + 1))
        with (S (Z.to_nat (st_current_index state))) by lia.
      now rewrite (firstn_succ_nth _ _ _ Hidx).
    + unfold should_continue_verification.
      cbn [record_result st_current_index st_claims].
      destruct (_ <? _)%Z eqn:E; cbn [node_rank]; [lia|].
      apply Z.ltb_ge in E. lia.
  - destruct Hstep as (-> & -> & _).
    destruct (compute_score_keeps state) as (_ & _ & HC & HI & HR).
    rewrite HC, HI, HR. split; [exact Hmap|]. intros _. apply Hdone. cbn. lia.
  - destruct Hstep as (-> & -> & _).
    split; [exact Hmap|]. intros _. apply Hdone. cbn. lia.
  - destruct Hstep as (-> & -> & _). split; assumption.
Qed.

(** X7. In every configuration of a run the results belong, one each and in
    the same order, to the claims before the index; from the aggregator
    on, to all the claims: each extracted claim has been verified once,
    none twice, none out of turn. *)
Theorem results_follow_claims content w n state w' :
  reach (Node_plan_claims, init_state content, w) (n, state, w') ->
  map r_claim (st_claim_results state)
  = firstn (Z.to_nat (st_current_index state)) (st_claims state)
  /\ (3 <= node_rank n ->
      map r_claim (st_claim_results state) = st_claims state
      /\ List.length (st_claim_results state) = List.length (st_claims state)).
Proof.
  intros Hreach.
  assert (Hinv : verified_in_order n state).
  { remember (Node_plan_claims, init_state content, w) as c0 eqn:E0.
    remember (n, state, w') as c eqn:E.
    revert n state w' E.
    induction Hreach as [|n1 s1 w1 c' Hreach IH Hnot Hstep];
      intros n state w' E.
    - subst. injection E as <- <- <-.
      repeat split; cbn; lia.
    - subst c'. specialize (IH n1 s1 w1 eq_refl).
      exact (step_keeps_verified_in_order _ _ _ _ _ _ IH Hstep). }
  destruct Hinv as ((Hlen & Hrange) & Hmap & Hdone).
  split; [exact Hmap|]. intros Hrank. specialize (Hdone Hrank).
  assert (Hall : map r_claim (st_claim_results state) = st_claims state).
  { rewrite Hmap, Hdone, Nat2Z.id. apply firstn_all. }
  split; [exact Hall|]. rewrite <- Hall. now rewrite length_map.
Qed.

(** ** A run that ends *)




Lemma reach_front n state w c1 c2 :
  n <> END ->
  step1 n state w = Ok c1 ->
  reach c1 c2 ->
  reach (n, state, w) c2.
Proof.
  intros Hn Hstep Hreach.
  induction Hreach as [|n2 s2 w2 c3 Hreach IH Hn2 Hstep2].
  - eapply reaches_next; [constructor | exact Hn | exact Hstep].
  - eapply reaches_next; [exact IH | exact Hn2 | exact Hstep2].
Qed.

Lemma run_finished_reaches fuel :
  forall n state w state' w',
    run py_repr json_loads model_invoke search_run fuel n state w
    = Finished W state' w' ->
    reach (n, state, w) (END, state', w').
Proof.
  induction fuel as [|fuel IH]; intros n state w state' w' H.
  - destruct n; cbn in H; try discriminate.
    injection H as <- <-. constructor.
  - destruct n;
      try (cbn [run] in H;
           match type of H with
           | match ?s with _ => _ end = _ =>
               destruct s as [[[n1 s1] w1]|e] eqn:Hstep; [|discriminate]
           end;
           eapply reach_front; [discriminate | exact Hstep | exact (IH _ _ _ _ _ H)]).
    cbn in H. injection H as <- <-. constructor.
Qed.





Lemma report_ends_line results :
  results <> [] -> exists text, report py_repr results = text ++ nl.
Proof.
  unfold report. induction results as [|r rest IH]; [congruence|]. intros _.
  destruct rest as [|r' rest].
  - apply format_result_ends_line.
  - destruct IH as [text Ht]; [discriminate|].
    cbn [map] in *. rewrite join_cons, Ht.
    exists (format_result py_repr r ++ nl ++ text).
    now rewrite !string_app_assoc.
Qed.

Lemma compute_score_outcome state :
  st_claim_results state <> [] ->
  (st_D (compute_score state) = Some "Verified"
   \/ st_D (compute_score state) = Some "Unverified")
  /\ (0 <= st_legitimacy_percentage (compute_score state)
      /\ st_legitimacy_percentage (compute_score state) <= 100)%Q.
Proof.
  intros Hne. unfold compute_score.
  destruct (st_claim_results state) as [|r rest] eqn:Hres; [congruence|].
  cbn [st_D st_legitimacy_percentage]. split.
  - destruct (Qle_bool _ _); auto.
  - pose proof (legit_count_bounds (r :: rest)) as Hb.
    set (total := Z.of_nat (List.length (r :: rest))) in *.
    assert (Htotal : (0 < total)%Z) by (subst total; cbn [List.length]; lia).
    set (exact := (inject_Z (legit_count (r :: rest)) / inject_Z total * 100)%Q).
    assert (Hlo : (inject_Z 0 <= exact)%Q)
      by (apply percentage_ge; [assumption | lia]).
    assert (Hhi : (exact <= inject_Z 100)%Q)
      by (apply percentage_le; [assumption | lia]).
    change (inject_Z 0) with 0%Q in Hlo. change (inject_Z 100) with 100%Q in Hhi.
    unfold round2. split.
    + assert (H : (inject_Z 0 <= exact * 100)%Q)
        by (change (inject_Z 0) with 0%Q; lra).
      apply round_half_even_ge in H. unfold Qle. cbn -[Z.mul]. lia.
    + assert (H : (exact * 100 <= inject_Z 10000)%Q)
        by (change (inject_Z 10000) with 10000%Q; lra).
      apply round_half_even_le in H. unfold Qle. cbn -[Z.mul]. lia.
Qed.

Lemma reach_aggregated content w n state w' :
  reach (Node_plan_claims, init_state content, w) (n, state, w') ->
  (n = Node_final_explanation ->
   exists scored, st_claim_results scored <> [] /\ state = compute_score scored)
  /\ (n = END ->
      exists scored,
        st_claim_results scored <> []
        /\ state = final_explanation py_repr (compute_score scored)).
Proof.
  intros Hreach.
  remember (Node_plan_claims, init_state content, w) as c0 eqn:E0.
  remember (n, state, w') as c eqn:E.
  revert n state w' E.
  induction Hreach as [|n1 s1 w1 c' Hreach IH Hnot Hstep];
    intros n state w' E.
  - subst. injection E as <- <- <-. split; discriminate.
  - subst c'. specialize (IH n1 s1 w1 eq_refl).
    pose proof Hstep as Hcases. apply step_cases in Hcases. destruct n1.
    + destruct Hcases as [-> _]. split; discriminate.
    + destruct Hcases as [_ Hroute]. apply should_extract_more_cases in Hroute.
      destruct Hroute as (N & _ & [[-> _]|[-> _]]); split; discriminate.
    + destruct Hcases as [_ ->]. unfold should_continue_verification.
      destruct (_ <? _)%Z; split; discriminate.
    + destruct Hcases as (-> & -> & _). split; [|discriminate]. intros _.
      subst c0. exists s1. split; [|reflexivity].
      eapply aggregation_has_results; [exact Hreach | now left].
    + destruct Hcases as (-> & -> & _). split; [discriminate|]. intros _.
      destruct (proj1 IH eq_refl) as (scored & Hne & ->). now exists scored.
    + congruence.
Qed.

(** X10. Whenever [predict] has a response, its label is Verified or
    Unverified (never Fake, never missing), its percentage lies between 0
    and 100, and its explanation is a report that ends its last line. *)
Theorem finished_response fuel header body w resp :
  predict py_repr json_loads W model_invoke search_run fuel header body w
  = Ok (Some resp) ->
  (label resp = "Verified" \/ label resp = "Unverified")
  /\ (0 <= percentage resp /\ percentage resp <= 100)%Q
  /\ exists text, explanation resp = text ++ nl.
Proof.
  unfold predict, graph_invoke.
  destruct (run _ _ _ _ fuel _ _ w) as [state w'|e|n state w'] eqn:Hrun;
    [|discriminate|discriminate].
  intros [= <-]. apply run_finished_reaches in Hrun.
  destruct (proj2 (reach_aggregated _ _ _ _ _ Hrun) eq_refl)
    as (scored & Hne & ->).
  destruct (compute_score_outcome scored Hne) as (Hlabel & Hpct).
  destruct (compute_score_keeps scored) as (_ & _ & _ & _ & HR).
  unfold response_of, final_explanation.
  cbn [label percentage explanation st_D st_legitimacy_percentage
       st_final_explanation].
  split; [|split; [exact Hpct|]].
  - destruct Hlabel as [-> | ->]; auto.
  - rewrite HR. apply report_ends_line. exact Hne.
Qed.

(** ** A run with collaborators that cooperate *)



(** What is counted is what a run passes through. *)
Lemma steps_reaches k c c' : stepsk k c = Ok c' -> reach c c'.
Proof.
  revert c'. induction k as [|k IH]; cbn [steps]; intros c' H.
  - injection H as <-. constructor.
  - destruct (stepsk k c) as [[[n state] w]|e]; cbn [bind] in H; [|discriminate].
    specialize (IH _ eq_refl). destruct n;
      try (eapply reaches_next; [exact IH | discriminate | exact H]).
    cbn [step] in H. injection H as <-. exact IH.
Qed.

End GraphFacts.

(** ** The extractor and the done signal *)

Section ExtractorFacts.

Variable py_repr : json -> string.
Variable json_loads : string -> result json.
Variable W : Type.
Variable model_invoke : W -> string -> string -> result string * W.

Local Abbreviation extract := (extract_next_claim py_repr json_loads W model_invoke).

(** A reply carrying a true done leaves the state as it is. *)
Lemma extract_next_claim_done state w content w' d v :
  model_invoke w extract_system
    (extract_human py_repr (st_plan state) (st_claims state) (st_A state))
  = (Ok content, w') ->
  extract_json json_loads content = Ok (JObj d) ->
  dict_lookup "done" d = Some v ->
  truthy v = true ->
  extract state w = Ok (state, w').
Proof.
  intros Hmodel Hparse Hd Hv. unfold extract_next_claim.
  rewrite Hmodel. cbn [bind]. rewrite Hparse.
  cbn [try_except py_get bind]. rewrite Hd. cbn [bind]. now rewrite Hv.
Qed.

(** So does a reply that cannot be had or parsed: done is put in its
    place. *)
Lemma extract_next_claim_failure state w response w' :
  model_invoke w extract_system
    (extract_human py_repr (st_plan state) (st_claims state) (st_A state))
  = (response, w') ->
  (forall content, response = Ok content ->
                   exists e, extract_json json_loads content = Raise e) ->
  extract state w = Ok (state, w').
Proof.
  intros Hmodel Hfail. unfold extract_next_claim. rewrite Hmodel.
  destruct response as [content|e]; cbn [bind].
  - destruct (Hfail content eq_refl) as [e ->]. reflexivity.
  - reflexivity.
Qed.

(** After a done, the router looks at the counts alone. *)
Lemma should_extract_more_ignores_done state N :
  py_len (st_plan state) = Ok N ->
  List.length (st_claims state) < N ->
  should_extract_more state = Ok Node_extract_next_claim.
Proof.
  intros HN Hlt. unfold should_extract_more. rewrite HN. cbn [bind].
  apply Nat.ltb_lt in Hlt. now rewrite Hlt.
Qed.

(** X4. What the extractor makes of a reply that parses to an object. A done
    that is true in Python's sense (any value but null, false, zero and
    the empty string, list and object) leaves the state as it is, also
    when the object carries a claim. Without such a done, the value under
    claim is appended as it is, with no look at the claims already held;
    and when there is no claim either, the node raises [KeyError]. *)
Theorem extract_next_claim_cases state w content w' d :
  model_invoke w extract_system
    (extract_human py_repr (st_plan state) (st_claims state) (st_A state))
  = (Ok content, w') ->
  extract_json json_loads content = Ok (JObj d) ->
  (forall v, dict_lookup "done" d = Some v -> truthy v = true ->
             extract state w = Ok (state, w'))
  /\ ((dict_lookup "done" d = None
       \/ exists v, dict_lookup "done" d = Some v /\ truthy v = false) ->
      (forall claim, dict_lookup "claim" d = Some claim ->
                     extract state w = Ok (add_claim state claim, w'))
      /\ (dict_lookup "claim" d = None -> extract state w = Raise KeyError)).
Proof.
  intros Hmodel Hparse.
  assert (Hrun : extract state w
                 = (done <- Ok (match dict_lookup "done" d with
                                | Some v => v
                                | None => JNull
                                end) ;;
                    if truthy done then Ok (state, w')
                    else
                      claim <- py_getitem (JObj d) "claim" ;;
                      Ok (add_claim state claim, w'))).
  { unfold extract_next_claim. rewrite Hmodel. cbn [bind]. rewrite Hparse.
    reflexivity. }
  rewrite Hrun. cbn [bind py_getitem]. split.
  - intros v -> Hv. now rewrite Hv.
  - intros Hnot.
    assert (Hfalse : truthy (match dict_lookup "done" d with
                             | Some v => v
                             | None => JNull
                             end) = false)
      by (destruct Hnot as [->|(v & -> & Hv)]; [reflexivity | exact Hv]).
    rewrite Hfalse. split.
    + intros claim ->. reflexivity.
    + intros ->. reflexivity.
Qed.

End ExtractorFacts.

Lemma steps_succ py_repr json_loads {W} model_invoke search_run k c :
  @steps py_repr json_loads W model_invoke search_run (S k) c
  = (c' <- steps py_repr json_loads model_invoke search_run k c ;;
     let '(n, state, w) := c' in
     step py_repr json_loads model_invoke search_run n state w).
Proof. reflexivity. Qed.

(** C4, at the failing input: the plan has one topic and the model answers
    every extraction with done. Each extraction leaves the state as it is,
    and the router, which compares the counts only, sends the graph back
    to the extractor: after any number of supersteps the graph is at the
    extractor again with the state it had, and no amount of fuel brings
    the run to the verifier or to its end. *)
Theorem extraction_repeats_after_done (k : nat) :
  demo_steps (S k) (Node_plan_claims, init_state "a", script_done_for_ever)
  = Ok (Node_extract_next_claim, state_planned,
        mkScript [] (Ok text_done) [] (Ok "evidence"))
  /\ demo_run (S k) Node_plan_claims (init_state "a") script_done_for_ever
     = Unfinished Script Node_extract_next_claim state_planned
         (mkScript [] (Ok text_done) [] (Ok "evidence")).
Proof.
  split.
  - induction k as [|k IH]; [reflexivity|].
    unfold demo_steps in *. rewrite steps_succ, IH. reflexivity.
  - change (demo_run k Node_extract_next_claim state_planned
              (mkScript [] (Ok text_done) [] (Ok "evidence"))
            = Unfinished Script Node_extract_next_claim state_planned
                (mkScript [] (Ok text_done) [] (Ok "evidence"))).
    induction k as [|k IH]; [reflexivity|]. exact IH.
Qed.

(** The responses of [predict] under the limit are responses of [predict]
    with the fuel of the limit, and a run the fuel does not suffice for
    is a run ended with [GraphRecursionError]. *)
Lemma predict_app_predict py_repr json_loads W model_invoke search_run
    header body w :
  (forall resp,
      @predict_app py_repr json_loads W model_invoke search_run header body w
      = Ok resp <->
      predict py_repr json_loads W model_invoke search_run
        recursion_limit header body w = Ok (Some resp))
  /\ (predict py_repr json_loads W model_invoke search_run
        recursion_limit header body w = Ok None ->
      @predict_app py_repr json_loads W model_invoke search_run header body w
      = Raise GraphRecursionError).
Proof.
  unfold predict_app, graph_app_invoke, predict.
  destruct (graph_invoke _ _ _ _ _ _ _ _) as [state w'|e|n state w'].
  - split; [|discriminate]. intros resp. split; congruence.
  - split; [|discriminate]. intros resp. split; discriminate.
  - split; [|reflexivity]. intros resp. split; discriminate.
Qed.

(** Under the limit of the graph library the same run is ended with
    [GraphRecursionError]: no verification, no score, no report. *)
Example extraction_repeats_until_the_limit :
  graph_app_invoke no_repr table_json_loads scripted_model scripted_search
    "a" script_done_for_ever
  = Aborted Script GraphRecursionError.
Proof. reflexivity. Qed.

(** The same with a model that raises at every extraction: the done put in
    place of the failed reply does not end the loop either. *)
Example extraction_repeats_after_failure :
  demo_steps 7 (Node_plan_claims, init_state "a", script_model_down)
  = Ok (Node_extract_next_claim, state_planned,
        mkScript [] (Raise CollaboratorError) [] (Ok "evidence")).
Proof. reflexivity. Qed.

(** C3, as stated, fails on an empty plan: the planner's default plan is
    empty, the extractor runs all the same and appends the claim it is
    given, and the graph arrives at the verifier with one claim for a plan
    of length 0. *)
Lemma extraction_exceeds_empty_plan :
  demo_steps 1 (Node_plan_claims, init_state "a", script_empty_plan_claim)
  = Ok (Node_extract_next_claim, init_state "a",
        script_answers [Ok text_claim_c; Ok text_legit])
  /\ demo_steps 2 (Node_plan_claims, init_state "a", script_empty_plan_claim)
     = Ok (Node_verify_claim, add_claim (init_state "a") (JStr "c"),
           script_answers [Ok text_legit])
  /\ py_len (st_plan (add_claim (init_state "a") (JStr "c"))) = Ok 0
  /\ List.length (st_claims (add_claim (init_state "a") (JStr "c"))) = 1
  /\ ~ extraction_bound_by_plan_length.
Proof.
  repeat split.
  intros Hbound.
  specialize (Hbound script_empty_plan_claim "a" 2 0
                (add_claim (init_state "a") (JStr "c"))
                (script_answers [Ok text_legit]) eq_refl eq_refl).
  cbn in Hbound. lia.
Qed.

(** An empty plan with zero claims does not go to aggregation: the graph
    enters the verifier, which has no claim to index. *)
Example empty_plan_done_aborts :
  demo_run 10 Node_plan_claims (init_state "a") script_empty_plan_done
  = Aborted Script IndexError.
Proof. reflexivity. Qed.

(** A reply that is an object with neither done nor claim aborts the run
    in the extractor. *)
Example extraction_without_claim_aborts :
  demo_run 10 Node_plan_claims (init_state "a")
    (script_answers [Ok text_plan_t; Ok text_empty_object])
  = Aborted Script KeyError.
Proof. reflexivity. Qed.

(** A run in which nothing fails. *)
Example run_one_legit_claim :
  demo_predict 10 "h" "b"
    (script_answers [Ok text_plan_t; Ok text_claim_c; Ok text_legit])
  = Ok (Some (mkResponse "Verified" (10000 # 100)
                ("✅ Claim: c" ++ nl ++ "Why it is legit:" ++ nl ++ "e" ++ nl))).
Proof. reflexivity. Qed.

(** Two topics, two claims, one judged legit and one not: 50.0 and
    Unverified, the two entries in the order of the claims. *)
Example run_two_claims :
  demo_predict 10 "h" "b"
    (script_answers [Ok text_plan_two; Ok text_claim_c; Ok text_claim_c;
                     Ok text_legit; Ok text_not_legit])
  = Ok (Some (mkResponse "Unverified" (5000 # 100)
                ("✅ Claim: c" ++ nl ++ "Why it is legit:" ++ nl ++ "e" ++ nl
                 ++ nl
                 ++ "❌ Claim: c" ++ nl ++ "Why it is not legit:" ++ nl
                 ++ "e" ++ nl))).
Proof. reflexivity. Qed.

(** A model that fails at every call after planning two topics and
    giving two claims: both results are the fallback, and the run ends. *)
Example run_model_failing_at_verification :
  demo_predict 10 "h" "b"
    (script_answers [Ok text_plan_two; Ok text_claim_c; Ok text_claim_c])
  = Ok (Some (mkResponse "Unverified" (0 # 100)
                ("❌ Claim: c" ++ nl ++ "Why it is not legit:" ++ nl
                 ++ "Verification failed." ++ nl
                 ++ nl
                 ++ "❌ Claim: c" ++ nl ++ "Why it is not legit:" ++ nl
                 ++ "Verification failed." ++ nl))).
Proof. reflexivity. Qed.

(** C1, at the failing input: the plan has one topic, one claim is
    extracted, and the search raises when the claim is verified. The run
    ends there with what the search raised, whatever the fuel: no
    aggregation, no report, and [predict] has no response to give. *)
Theorem pipeline_aborts_on_search_failure (fuel : nat) :
  demo_run (3 + fuel) Node_plan_claims (init_state ("h" ++ nl ++ "b"))
    (script_search_fails [Ok text_plan_t; Ok text_claim_c])
  = Aborted Script CollaboratorError
  /\ demo_predict (3 + fuel) "h" "b"
       (script_search_fails [Ok text_plan_t; Ok text_claim_c])
     = Raise CollaboratorError.
Proof. split; reflexivity. Qed.

(** * Further properties of the code *)

(** ** The parser and the text around the object *)

Lemma match_star_rbrace_app s post :
  has_char rbrace post = false ->
  match_star_rbrace (s ++ post) = match_star_rbrace s.
Proof.
  intros Hpost. induction s as [|a s IH]; cbn [append match_star_rbrace].
  - now apply match_star_rbrace_none.
  - now rewrite IH.
Qed.

Lemma re_search_app text post :
  has_char rbrace post = false ->
  re_search (text ++ post) = re_search text.
Proof.
  intros Hpost. induction text as [|a s IH]; cbn [append re_search].
  - now apply re_search_no_rbrace.
  - now rewrite IH, (match_star_rbrace_app s post Hpost).
Qed.

(** X1. Prose before the object that has no opening brace, and prose after it
    that has no closing brace, do not change what is searched out of the
    text, and so not what [extract_json] returns or raises. *)
Theorem extract_json_ignores_prose (json_loads : string -> result json)
    (pre text post : string) :
  has_char lbrace pre = false ->
  has_char rbrace post = false ->
  re_search (pre ++ text ++ post) = re_search text
  /\ extract_json json_loads (pre ++ text ++ post) = extract_json json_loads text.
Proof.
  intros Hpre Hpost.
  assert (H : re_search (pre ++ text ++ post) = re_search text)
    by (rewrite (re_search_skip _ _ Hpre); exact (re_search_app _ _ Hpost)).
  split; [exact H|]. unfold extract_json. now rewrite H.
Qed.

Lemma extract_json_ignores_prose_witness :
  re_search ("Here is the JSON you asked for: " ++ text_claim_c ++ " Anything else?")
  = re_search text_claim_c
  /\ extract_json table_json_loads
       ("Here is the JSON you asked for: " ++ text_claim_c ++ " Anything else?")
     = extract_json table_json_loads text_claim_c.
Proof.
  apply (extract_json_ignores_prose table_json_loads
           "Here is the JSON you asked for: " text_claim_c " Anything else?");
    reflexivity.
Defined.

(** X2. What is searched out of a text is searched out of itself unchanged:
    it opens with a brace, closes with a brace, and parsing it again gives
    what parsing the text gave. *)
Theorem re_search_idempotent (json_loads : string -> result json)
    (text m : string) :
  re_search text = Some m ->
  re_search m = Some m
  /\ (exists mid, m = String lbrace (mid ++ String rbrace EmptyString))
  /\ extract_json json_loads m = extract_json json_loads text.
Proof.
  intros H. destruct (re_search_some _ _ H) as (pre & mid & post & _ & _ & _ & ->).
  assert (Hm : re_search (String lbrace (mid ++ String rbrace EmptyString))
               = Some (String lbrace (mid ++ String rbrace EmptyString)))
    by exact (re_search_span EmptyString mid EmptyString eq_refl eq_refl).
  split; [exact Hm|]. split; [now exists mid|].
  unfold extract_json. now rewrite Hm, H.
Qed.

Lemma re_search_idempotent_witness :
  re_search ("{a}" ++ nl ++ "{b}") = Some ("{a}" ++ nl ++ "{b}")
  /\ (exists mid,
        "{a}" ++ nl ++ "{b}" = String lbrace (mid ++ String rbrace EmptyString))
  /\ extract_json table_json_loads ("{a}" ++ nl ++ "{b}")
     = extract_json table_json_loads ("see {a}" ++ nl ++ "{b}.").
Proof.
  apply (re_search_idempotent table_json_loads
           ("see {a}" ++ nl ++ "{b}.") ("{a}" ++ nl ++ "{b}")).
  reflexivity.
Defined.

(** ** The aggregator: what the label depends on *)

Lemma legit_count_permutation results results' :
  Permutation results results' -> legit_count results = legit_count results'.
Proof.
  induction 1 as [|r l l' _ IH|r r' l|l l' l'' _ IH1 _ IH2];
    cbn [legit_count]; lia.
Qed.

(** X11. The order of the results does not matter to the aggregator: two
    states whose results are the same up to order get the same
    percentage and the same label. *)
Theorem compute_score_order_independent (state state' : VerifyState) :
  Permutation (st_claim_results state) (st_claim_results state') ->
  st_legitimacy_percentage (compute_score state)
  = st_legitimacy_percentage (compute_score state')
  /\ st_final_verdict (compute_score state)
     = st_final_verdict (compute_score state')
  /\ st_D (compute_score state) = st_D (compute_score state').
Proof.
  intros Hperm.
  pose proof (legit_count_permutation _ _ Hperm) as Hcount.
  pose proof (Permutation_length Hperm) as Hlen.
  unfold compute_score.
  destruct (st_claim_results state) as [|r rest];
    destruct (st_claim_results state') as [|r' rest'];
    try discriminate Hlen; [repeat split|].
  cbn [st_legitimacy_percentage st_final_verdict st_D].
  rewrite Hcount, Hlen. repeat split.
Qed.

Lemma compute_score_order_independent_witness :
  st_legitimacy_percentage
    (compute_score (mkState "a" (JArr []) [] 2%Z
                      [result_with "legit"; result_with "not legit"]
                      0%Q None None None))
  = st_legitimacy_percentage
      (compute_score (mkState "a" (JArr []) [] 2%Z
                        [result_with "not legit"; result_with "legit"]
                        0%Q None None None))
  /\ st_final_verdict
       (compute_score (mkState "a" (JArr []) [] 2%Z
                         [result_with "legit"; result_with "not legit"]
                         0%Q None None None))
     = st_final_verdict
         (compute_score (mkState "a" (JArr []) [] 2%Z
                           [result_with "not legit"; result_with "legit"]
                           0%Q None None None))
  /\ st_D
       (compute_score (mkState "a" (JArr []) [] 2%Z
                         [result_with "legit"; result_with "not legit"]
                         0%Q None None None))
     = st_D
         (compute_score (mkState "a" (JArr []) [] 2%Z
                           [result_with "not legit"; result_with "legit"]
                           0%Q None None None)).
Proof.
  apply (compute_score_order_independent
           (mkState "a" (JArr []) [] 2%Z
              [result_with "legit"; result_with "not legit"] 0%Q None None None)
           (mkState "a" (JArr []) [] 2%Z
              [result_with "not legit"; result_with "legit"] 0%Q None None None)).
  cbn [st_claim_results]. apply perm_swap.
Defined.

Lemma record_result_count state r :
  legit_count (st_claim_results (record_result state r))
  = (legit_count (st_claim_results state)
     + (if py_eq_str (r_verdict r) "legit" then 1 else 0))%Z
  /\ List.length (st_claim_results (record_result state r))
     = S (List.length (st_claim_results state))
  /\ st_claim_results (record_result state r) <> [].
Proof.
  cbn [record_result st_claim_results].
  rewrite legit_count_app, length_app. cbn [legit_count List.length].
  repeat split; try lia.
  destruct (st_claim_results state); discriminate.
Qed.

Lemma verified_has_results state :
  st_final_verdict (compute_score state) = Some "Verified" ->
  st_claim_results state <> [].
Proof.
  unfold compute_score. destruct (st_claim_results state); [|discriminate].
  cbn [st_final_verdict]. discriminate.
Qed.

(** X12. One more result judged "legit" never takes the label Verified away. *)
Theorem legit_verdict_keeps_verified (state : VerifyState) (r : ClaimResult) :
  r_verdict r = JStr "legit" ->
  st_final_verdict (compute_score state) = Some "Verified" ->
  st_final_verdict (compute_score (record_result state r)) = Some "Verified".
Proof.
  intros Hr Hv. pose proof (verified_has_results _ Hv) as Hne.
  destruct (record_result_count state r) as (Hc & Hl & Hne').
  apply compute_score_verified_iff in Hv; [|exact Hne].
  apply compute_score_verified_iff; [exact Hne'|].
  rewrite Hc, Hl, Hr. cbn [py_eq_str]. rewrite String.eqb_refl. lia.
Qed.

Lemma legit_verdict_keeps_verified_witness :
  st_final_verdict
    (compute_score (record_result (state_with 3 2) (result_with "legit")))
  = Some "Verified".
Proof.
  apply (legit_verdict_keeps_verified (state_with 3 2) (result_with "legit"));
    reflexivity.
Defined.

(** X13. One more result whose verdict is anything but the string "legit" (the
    fallback of a failed verification among them) never brings the label
    Verified: if the label was not Verified before, it is Unverified
    after. *)
Theorem other_verdict_never_verifies (state : VerifyState) (r : ClaimResult) :
  r_verdict r <> JStr "legit" ->
  st_final_verdict (compute_score state) <> Some "Verified" ->
  st_final_verdict (compute_score (record_result state r)) = Some "Unverified".
Proof.
  intros Hr Hv.
  destruct (record_result_count state r) as (Hc & Hl & Hne').
  assert (Hnot : st_final_verdict (compute_score (record_result state r))
                 <> Some "Verified").
  { intros Hv'. apply compute_score_verified_iff in Hv'; [|exact Hne'].
    rewrite Hc, Hl in Hv'.
    destruct (py_eq_str (r_verdict r) "legit") eqn:E;
      [apply py_eq_str_iff in E; contradiction|].
    destruct (st_claim_results state) as [|r0 rest] eqn:Hres.
    - cbn [legit_count List.length] in Hv'. lia.
    - apply Hv. apply compute_score_verified_iff; rewrite Hres;
        [discriminate | lia]. }
  revert Hnot. unfold compute_score.
  destruct (st_claim_results (record_result state r)); [congruence|].
  cbn [st_final_verdict]. destruct (Qle_bool _ _); congruence.
Qed.

Lemma other_verdict_never_verifies_witness :
  st_final_verdict
    (compute_score
       (record_result (state_with 1 1) (fallback_result (JStr "c"))))
  = Some "Unverified".
Proof.
  apply (other_verdict_never_verifies (state_with 1 1) (fallback_result (JStr "c")));
    [discriminate | vm_compute; discriminate].
Defined.

(** ** The report and the count read the verdict differently *)

Lemma round_half_even_zero q : (q == 0)%Q -> round_half_even q = 0%Z.
Proof.
  intros Hq.
  assert (Hlo : (0 <= round_half_even q)%Z)
    by (apply round_half_even_ge; change (inject_Z 0) with 0%Q; lra).
  assert (Hhi : (round_half_even q <= 0)%Z)
    by (apply round_half_even_le; change (inject_Z 0) with 0%Q; lra).
  lia.
Qed.

Lemma legit_count_none results :
  (forall r, In r results -> r_verdict r <> JStr "legit") ->
  legit_count results = 0%Z.
Proof.
  induction results as [|r rest IH]; intros H; cbn [legit_count]; [reflexivity|].
  rewrite IH by (intros r' Hin; apply H; now right).
  destruct (py_eq_str (r_verdict r) "legit") eqn:E; [|reflexivity].
  apply py_eq_str_iff in E. exfalso. apply (H r); [now left | exact E].
Qed.

(** X14. A verdict that is neither "legit" nor "not legit" (a different
    spelling, another word, a value that is not a string) is read one way
    by the report and the other way by the count: its entry carries the
    mark and the wording of a legit claim, and it does not count as legit.
    A state with such results only is reported with every entry marked
    legit, a percentage of 0 and the label Unverified. *)
Theorem unknown_verdict_shown_legit_counted_not
    (py_repr : json -> string) (state : VerifyState) :
  st_claim_results state <> [] ->
  (forall r, In r (st_claim_results state) ->
             r_verdict r <> JStr "legit" /\ r_verdict r <> JStr "not legit") ->
  map (format_result py_repr) (st_claim_results state)
  = map (fun r => "✅ Claim: " ++ py_str py_repr (r_claim r) ++ nl
                  ++ "Why it is legit:" ++ nl
                  ++ py_str py_repr (r_explanation r) ++ nl)
      (st_claim_results state)
  /\ st_legitimacy_percentage (compute_score state) = (0 # 100)%Q
  /\ st_final_verdict (compute_score state) = Some "Unverified".
Proof.
  intros Hne Hall. split; [|split].
  - apply map_ext_in. intros r Hin. unfold format_result.
    destruct (py_eq_str (r_verdict r) "not legit") eqn:E; [|reflexivity].
    apply py_eq_str_iff in E. now destruct (Hall r Hin).
  - assert (Hc : legit_count (st_claim_results state) = 0%Z)
      by (apply legit_count_none; intros r Hin; now destruct (Hall r Hin)).
    unfold compute_score.
    destruct (st_claim_results state) as [|r rest] eqn:Hres; [congruence|].
    cbn [st_legitimacy_percentage]. rewrite Hc. unfold round2.
    rewrite round_half_even_zero; [reflexivity|].
    unfold Qeq, Qmult, Qdiv, inject_Z. cbn [Qnum Qden Z.mul]. reflexivity.
  - assert (Hnot : st_final_verdict (compute_score state) <> Some "Verified").
    { intros Hv. apply compute_score_verified_iff in Hv; [|exact Hne].
      rewrite legit_count_none in Hv
        by (intros r Hin; now destruct (Hall r Hin)).
      destruct (st_claim_results state); [congruence|].
      cbn [List.length] in Hv. lia. }
    revert Hnot. unfold compute_score.
    destruct (st_claim_results state); [congruence|].
    cbn [st_final_verdict]. destruct (Qle_bool _ _); congruence.
Qed.

Lemma unknown_verdict_shown_legit_counted_not_witness :
  map (format_result no_repr) [result_with "Legit"]
  = ["✅ Claim: c" ++ nl ++ "Why it is legit:" ++ nl ++ "e" ++ nl]
  /\ st_legitimacy_percentage
       (compute_score (mkState "a" (JArr []) [JStr "c"] 1%Z
                         [result_with "Legit"] 0%Q None None None))
     = (0 # 100)%Q
  /\ st_final_verdict
       (compute_score (mkState "a" (JArr []) [JStr "c"] 1%Z
                         [result_with "Legit"] 0%Q None None None))
     = Some "Unverified".
Proof.
  apply (unknown_verdict_shown_legit_counted_not no_repr
           (mkState "a" (JArr []) [JStr "c"] 1%Z
              [result_with "Legit"] 0%Q None None None)).
  - discriminate.
  - intros r [<-|[]]. split; discriminate.
Defined.

(** ** The properties of a run, on examples *)

(** The three cases on three replies: a claim with a done that is the
    string "false" (true, for Python) is dropped; a claim alone is
    appended; an object with neither raises. *)
Lemma extract_next_claim_cases_witness :
  extract_next_claim no_repr done_claim_loads Script scripted_model
    state_planned (script_answers [Ok text_done_false_claim])
  = Ok (state_planned, script_answers [])
  /\ extract_next_claim no_repr done_claim_loads Script scripted_model
       state_planned (script_answers [Ok text_claim_c])
     = Ok (add_claim state_planned (JStr "c"), script_answers [])
  /\ extract_next_claim no_repr done_claim_loads Script scripted_model
       state_planned (script_answers [Ok text_empty_object])
     = Raise KeyError.
Proof.
  split; [|split].
  - destruct (extract_next_claim_cases no_repr done_claim_loads Script
                scripted_model state_planned
                (script_answers [Ok text_done_false_claim])
                text_done_false_claim (script_answers [])
                [("done", JStr "false"); ("claim", JStr "c")]
                eq_refl eq_refl) as [Hdone _].
    apply (Hdone (JStr "false")); reflexivity.
  - destruct (extract_next_claim_cases no_repr done_claim_loads Script
                scripted_model state_planned
                (script_answers [Ok text_claim_c])
                text_claim_c (script_answers [])
                [("claim", JStr "c")]
                eq_refl eq_refl) as [_ Hother].
    destruct (Hother (or_introl eq_refl)) as [Hclaim _].
    apply (Hclaim (JStr "c")). reflexivity.
  - destruct (extract_next_claim_cases no_repr done_claim_loads Script
                scripted_model state_planned
                (script_answers [Ok text_empty_object])
                text_empty_object (script_answers [])
                []
                eq_refl eq_refl) as [_ Hother].
    destruct (Hother (or_introl eq_refl)) as [_ Hnone].
    apply Hnone. reflexivity.
Defined.

Lemma unsized_plan_stops_run_witness :
  (forall state,
      st_plan state
      = st_plan (fst (plan_claims number_plan_loads Script scripted_model
                        (init_state "a")
                        (script_answers [Ok text_plan_number; Ok text_claim_c]))) ->
      should_extract_more state = Raise TypeError)
  /\ forall fuel,
       exists e,
         run no_repr number_plan_loads scripted_model scripted_search (2 + fuel)
           Node_plan_claims (init_state "a")
           (script_answers [Ok text_plan_number; Ok text_claim_c])
         = Aborted Script e.
Proof.
  apply (unsized_plan_stops_run no_repr number_plan_loads Script
           scripted_model scripted_search "a"
           (script_answers [Ok text_plan_number; Ok text_claim_c])).
  reflexivity.
Defined.

Lemma pipeline_moves_forward_witness :
  node_rank Node_extract_next_claim <= node_rank END
  /\ st_A (final_explanation no_repr
             (compute_score
                (record_result (add_claim state_planned (JStr "c"))
                   (mkClaimResult (JStr "c") (JStr "legit") (JStr "e")))))
     = st_A state_planned
  /\ (Node_extract_next_claim <> Node_plan_claims ->
      st_plan (final_explanation no_repr
                 (compute_score
                    (record_result (add_claim state_planned (JStr "c"))
                       (mkClaimResult (JStr "c") (JStr "legit") (JStr "e")))))
      = st_plan state_planned
      /\ (exists more,
            st_claims (final_explanation no_repr
                         (compute_score
                            (record_result (add_claim state_planned (JStr "c"))
                               (mkClaimResult (JStr "c") (JStr "legit")
                                  (JStr "e")))))
            = (st_claims state_planned ++ more)%list)
      /\ (exists more,
            st_claim_results
              (final_explanation no_repr
                 (compute_score
                    (record_result (add_claim state_planned (JStr "c"))
                       (mkClaimResult (JStr "c") (JStr "legit") (JStr "e")))))
            = (st_claim_results state_planned ++ more)%list)).
Proof.
  apply (pipeline_moves_forward no_repr table_json_loads Script
           scripted_model scripted_search
           Node_extract_next_claim state_planned
           (script_answers [Ok text_claim_c; Ok text_legit])
           END
           (final_explanation no_repr
              (compute_score
                 (record_result (add_claim state_planned (JStr "c"))
                    (mkClaimResult (JStr "c") (JStr "legit") (JStr "e")))))
           (script_answers [])).
  apply (steps_reaches no_repr table_json_loads Script
           scripted_model scripted_search 4).
  reflexivity.
Defined.

Lemma results_follow_claims_witness :
  map r_claim (st_claim_results state_two_verified)
  = firstn (Z.to_nat (st_current_index state_two_verified))
      (st_claims state_two_verified)
  /\ (3 <= node_rank Node_compute_score ->
      map r_claim (st_claim_results state_two_verified)
      = st_claims state_two_verified
      /\ List.length (st_claim_results state_two_verified)
         = List.length (st_claims state_two_verified)).
Proof.
  apply (results_follow_claims no_repr table_json_loads Script
           scripted_model scripted_search "a"
           (script_answers [Ok text_plan_two; Ok text_claim_c; Ok text_claim_c;
                            Ok text_legit; Ok text_not_legit])
           Node_compute_score state_two_verified (script_answers [])).
  apply (steps_reaches no_repr table_json_loads Script
           scripted_model scripted_search 5).
  reflexivity.
Defined.


Lemma finished_response_witness :
  (label (mkResponse "Verified" (10000 # 100)
            ("✅ Claim: c" ++ nl ++ "Why it is legit:" ++ nl ++ "e" ++ nl))
   = "Verified"
   \/ label (mkResponse "Verified" (10000 # 100)
               ("✅ Claim: c" ++ nl ++ "Why it is legit:" ++ nl ++ "e" ++ nl))
      = "Unverified")
  /\ (0 <= percentage
             (mkResponse "Verified" (10000 # 100)
                ("✅ Claim: c" ++ nl ++ "Why it is legit:" ++ nl ++ "e" ++ nl))
      /\ percentage
           (mkResponse "Verified" (10000 # 100)
              ("✅ Claim: c" ++ nl ++ "Why it is legit:" ++ nl ++ "e" ++ nl))
         <= 100)%Q
  /\ exists text,
       explanation
         (mkResponse "Verified" (10000 # 100)
            ("✅ Claim: c" ++ nl ++ "Why it is legit:" ++ nl ++ "e" ++ nl))
       = text ++ nl.
Proof.
  apply (finished_response no_repr table_json_loads Script
           scripted_model scripted_search 10 "h" "b"
           (script_answers [Ok text_plan_t; Ok text_claim_c; Ok text_legit])).
  reflexivity.
Defined.

